(** * Worker threads and line protocol of the OptimumK SolidWorks plugin

    Shallow embedding of the progress/state/log line protocol handled by the
    worker threads of [app.py], [pose_creation.py] and
    [coordinate_insertion.py], of [run_hardpoint_command] and [create_pose],
    of the final-result logic of the workers' [run] methods, and of their
    [abort] methods together with [release_solidworks_command_state].

    Python strings are modelled as Rocq [string]s over ASCII; the Python
    builtins the code relies on ([str.strip], [str.split], [str.startswith],
    [int], [str] on integers, [dict.get]) are given their own definitions
    below, restricted to ASCII. *)

From Stdlib Require Import ZArith List Bool Ascii String Lia.
From Stdlib Require Import Numbers.DecimalString Numbers.DecimalZ.
Import ListNotations.

Open Scope string_scope.
Open Scope list_scope.

(** ** Python string builtins *)

Module Py.

(** Characters for which [str.isspace] holds, restricted to ASCII:
    [\t \n \x0b \x0c \r \x1c \x1d \x1e \x1f] and the space. *)
Definition is_space (c : ascii) : bool :=
  let n := nat_of_ascii c in
  ((9 <=? n) && (n <=? 13))%nat || ((28 <=? n) && (n <=? 32))%nat.

Fixpoint drop_spaces (l : list ascii) : list ascii :=
  match l with
  | [] => []
  | c :: r => if is_space c then drop_spaces r else l
  end.

(** [str.strip()] with no argument. *)
Definition strip (s : string) : string :=
  string_of_list_ascii
    (rev (drop_spaces (rev (drop_spaces (list_ascii_of_string s))))).

(** [s.startswith(p)]. *)
Definition startswith (s p : string) : bool := String.prefix p s.

(** [s.split(sep)] for a one-character separator: every occurrence
    splits, empty pieces are kept ("a::b".split(":") = ["a","","b"]). *)
Fixpoint split (sep : ascii) (s : string) : list string :=
  match s with
  | EmptyString => [EmptyString]
  | String c r =>
      let parts := split sep r in
      if Ascii.eqb c sep then EmptyString :: parts
      else match parts with
           | p :: ps => String c p :: ps
           | [] => [String c EmptyString]
           end
  end.

Definition is_digit (c : ascii) : bool :=
  let n := nat_of_ascii c in ((48 <=? n) && (n <=? 57))%nat.

(** The digit part accepted by [int(s)] in base 10:
    [digit ("_"? digit)*]; [need_digit] is set at the start and after
    an underscore. *)
Fixpoint digits_ok (need_digit : bool) (s : string) : bool :=
  match s with
  | EmptyString => negb need_digit
  | String c r =>
      if is_digit c then digits_ok false r
      else if Ascii.eqb c "_" && negb need_digit then digits_ok true r
      else false
  end.

Fixpoint remove_underscores (s : string) : string :=
  match s with
  | EmptyString => EmptyString
  | String c r =>
      if Ascii.eqb c "_" then remove_underscores r
      else String c (remove_underscores r)
  end.

Definition digits_value (s : string) : option Z :=
  if digits_ok true s then
    match NilEmpty.uint_of_string (remove_underscores s) with
    | Some u => Some (Z.of_uint u)
    | None => None
    end
  else None.

(** [int(s)] for a [str] argument: surrounding whitespace is ignored, an
    optional sign, then decimal digits with single underscores between
    them. [None] stands for the [ValueError]. *)
Definition int (s : string) : option Z :=
  match strip s with
  | String "-" r => option_map Z.opp (digits_value r)
  | String "+" r => digits_value r
  | t => digits_value t
  end.

(** [str(n)] for a Python [int]. *)
Definition str_int (n : Z) : string := NilEmpty.string_of_int (Z.to_int n).

(** [s.rstrip()] with no argument. *)
Definition rstrip (s : string) : string :=
  string_of_list_ascii (rev (drop_spaces (rev (list_ascii_of_string s)))).

(** [sep.join(xs)]. *)
Fixpoint join (sep : string) (xs : list string) : string :=
  match xs with
  | [] => ""
  | [x] => x
  | x :: xs' => (x ++ sep ++ join sep xs')%string
  end.

(** [d.get(k, default)] on a dict literal. *)
Fixpoint dict_get (d : list (string * string)) (k default : string) : string :=
  match d with
  | [] => default
  | (k', v) :: d' => if String.eqb k k' then v else dict_get d' k default
  end.

End Py.

(** ** Line protocol: [parse_output_line], [_handle_log], [QtStream.write] *)

Module Protocol.

(** The two integers a worker holds: [self._total_tasks] and
    [self._current_progress], both set to [0] in [__init__]. *)
Record pstate := mk_pstate { total_tasks : Z; current_progress : Z }.

Definition init_pstate : pstate := mk_pstate 0 0.

(** Signals a worker emits while running: [progress(int, int)],
    [state_changed(str)] and [log(str)]. *)
Inductive event :=
| EvProgress (current total : Z)
| EvState (description : string)
| EvLog (text : string).

(** [line.split(":")[1]]; every caller only evaluates it on a line that
    starts with a prefix ending in ":", where the index exists
    ([field1_exists] below), so the default is never used. *)
Definition field1 (line : string) : string := nth 1 (Py.split ":" line) "".

(** [state_descriptions] of [HardpointWorker.parse_output_line]. *)
Definition HardpointWorker_state_descriptions : list (string * string) :=
  [ ("Initializing", "Starting...");
    ("LoadingJson", "Loading JSON data...");
    ("LoadingMarkerPart", "Loading marker part...");
    ("InsertingBodies", "Inserting marker bodies...");
    ("RenamingBodies", "Renaming bodies...");
    ("ApplyingColors", "Applying colors...");
    ("CreatingCoordinateSystems", "Creating coordinate systems...");
    ("CreatingHardpointsFolder", "Creating Hardpoints folder...");
    ("CreatingTransformsFolder", "Creating Transforms folder...");
    ("CreatingTransforms", "Creating transform features...");
    ("UpdatingSuppression", "Updating suppression...");
    ("Rebuilding", "Rebuilding model...");
    ("Complete", "Done") ].

(** [state_descriptions] of [PoseCreationWorker.parse_output_line]. *)
Definition PoseCreationWorker_state_descriptions : list (string * string) :=
  [ ("Initializing", "Starting pose creation...");
    ("LoadingJson", "Loading JSON data...");
    ("LoadingMarkerPart", "Loading marker part...");
    ("CreatingCoordinateSystems", "Creating coordinate systems...");
    ("CreatingTransformsFolder", "Creating Transforms folder...");
    ("CreatingTransforms", "Creating transform features...");
    ("Rebuilding", "Rebuilding model...");
    ("Complete", "Pose creation complete") ].

(** [parse_output_line(self, line)], shared by the worker classes up to
    their [state_descriptions] table. Result: the new worker fields, the
    signals emitted, and the return value ([None] or the line). The
    [try: ... except: pass] around the integer parses makes a failed
    [int(...)] leave the fields unchanged and emit nothing. *)
Definition parse_output_line (descr : list (string * string))
    (st : pstate) (line : string) : pstate * list event * option string :=
  if Py.startswith line "TOTAL:" then
    match Py.int (field1 line) with
    | Some new_total =>
        let st' := mk_pstate new_total (current_progress st) in
        (st', [EvProgress (current_progress st') (total_tasks st')], None)
    | None => (st, [], None)
    end
  else if Py.startswith line "PROGRESS:" then
    match Py.int (field1 line) with
    | Some n =>
        let st' := mk_pstate (total_tasks st) n in
        (st', [EvProgress (current_progress st') (total_tasks st')], None)
    | None => (st, [], None)
    end
  else if Py.startswith line "STATE:" then
    let state := field1 line in
    (st, [EvState (Py.dict_get descr state state)], None)
  else (st, [], Some line).

(** [_handle_log(self, text)]. *)
Definition handle_log (descr : list (string * string)) (st : pstate)
    (text : string) : pstate * list event :=
  match parse_output_line descr st text with
  | (st', evs, Some l) => (st', evs ++ [EvLog l])
  | (st', evs, None) => (st', evs)
  end.

(** [QtStream.write(self, text)]: [text_written] is emitted with the
    stripped text when it is not empty. *)
Definition QtStream_write (text : string) : option string :=
  let t := Py.strip text in
  if String.eqb t "" then None else Some t.

(** A [write] on the redirected [sys.stdout] while a worker runs:
    [QtStream.write] connected to [_handle_log]. *)
Definition worker_write (descr : list (string * string)) (st : pstate)
    (text : string) : pstate * list event :=
  match QtStream_write text with
  | Some t => handle_log descr st t
  | None => (st, [])
  end.

(** [print(x)] writes [x] and then ["\n"]. *)
Definition worker_print (descr : list (string * string)) (st : pstate)
    (x : string) : pstate * list event :=
  let '(st1, e1) := worker_write descr st x in
  let '(st2, e2) := worker_write descr st1 (String "010" EmptyString) in
  (st2, e1 ++ e2).

(** One iteration of the reading loop of
    [CoordinateInsertionTab.run_hardpoint_command] with a worker: the line
    is stripped, skipped when empty, and classified by the loop's own
    [if]/[elif] chain (its STATE branch emits the raw token). *)
Definition rhc_line (st : pstate) (raw : string) : pstate * list event :=
  let line := Py.strip raw in
  if String.eqb line "" then (st, [])
  else if Py.startswith line "TOTAL:" then
    match Py.int (field1 line) with
    | Some new_total =>
        let st' := mk_pstate new_total (current_progress st) in
        (st', [EvProgress (current_progress st') (total_tasks st')])
    | None => (st, [])
    end
  else if Py.startswith line "PROGRESS:" then
    match Py.int (field1 line) with
    | Some current =>
        let st' := mk_pstate (total_tasks st) current in
        (st', [EvProgress (current_progress st') (total_tasks st')])
    | None => (st, [])
    end
  else if Py.startswith line "STATE:" then
    (st, [EvState (field1 line)])
  else (st, [EvLog line]).

(** Feeding a sequence of lines through one of the line handlers. *)
Fixpoint feed (step : pstate -> string -> pstate * list event)
    (st : pstate) (lines : list string) : pstate * list event :=
  match lines with
  | [] => (st, [])
  | l :: ls =>
      let '(st1, e1) := step st l in
      let '(st2, e2) := feed step st1 ls in
      (st2, e1 ++ e2)
  end.

(** The integer a line carries when, after [strip()], it is a [TOTAL:] or
    [PROGRESS:] directive whose field parses. *)
Definition payload_value (line : string) : option Z :=
  let t := Py.strip line in
  if Py.startswith t "TOTAL:" || Py.startswith t "PROGRESS:"
  then Py.int (field1 t) else None.

(** The line handler of a [HardpointWorker] fed through [sys.stdout]. *)
Definition hardpoint_write := worker_write HardpointWorker_state_descriptions.

End Protocol.

Import Protocol.

(** ** Running an operation: [run_hardpoint_command], [create_pose] and the
    workers' [run] methods *)

Module Runner.

(** How a Python call ends: with a return value (the operations here return
    a [bool]) or with an [Exception] whose [str] is the message. *)
Inductive outcome :=
| Returned (v : bool)
| Raised (msg : string).

(** What [subprocess.Popen(...)] yields: an exception (for instance the
    executable is missing), or a child whose merged output consists of the
    given lines and which exits with the given return code. *)
Inductive popen_result :=
| PopenFails (msg : string)
| PopenOk (lines : list string) (returncode : Z).

(** The [try]/[except] of the workers' [run]: [abort_flag] is the value of
    [self._abort] when the operation has returned or raised. *)
Definition worker_run (success_msg : string) (abort_flag : bool)
    (o : outcome) : bool * string :=
  match o with
  | Returned _ =>
      if abort_flag then (false, "Operation aborted") else (true, success_msg)
  | Raised msg =>
      if abort_flag then (false, "Operation aborted") else (false, msg)
  end.

Definition HardpointWorker_run :=
  worker_run "Operation completed successfully".
Definition PoseCreationWorker_run :=
  worker_run "Pose creation completed successfully".
Definition CoordinateInsertionWorker_run :=
  worker_run "Coordinate insertion completed successfully".

(** The message of [Exception(f"Command failed with exit code {rc}")]. *)
Definition exit_code_message (rc : Z) : string :=
  ("Command failed with exit code " ++ Py.str_int rc)%string.

(** [CoordinateInsertionTab.run_hardpoint_command(cmd, worker)] with a
    worker: the output lines go through [rhc_line]; a nonzero return code
    raises, and the [except] logs ["Error: ..."] and re-raises. *)
Definition run_hardpoint_command (st : pstate) (p : popen_result)
    : pstate * list event * outcome :=
  match p with
  | PopenFails msg => (st, [EvLog ("Error: " ++ msg)%string], Raised msg)
  | PopenOk lines rc =>
      let '(st', evs) := feed rhc_line st lines in
      if Z.eqb rc 0 then (st', evs, Returned true)
      else (st', evs ++ [EvLog ("Error: " ++ exit_code_message rc)%string],
            Raised (exit_code_message rc))
  end.

(** A [HardpointWorker(self.run_hardpoint_command, cmd)] run: the events it
    emits and its [finished] notification. *)
Definition hardpoint_run (abort_flag : bool) (p : popen_result)
    : list event * (bool * string) :=
  let '(_, evs, o) := run_hardpoint_command init_pstate p in
  (evs, HardpointWorker_run abort_flag o).

Definition pose_print := worker_print PoseCreationWorker_state_descriptions.

(** The [for line in process.stdout] loop of [create_pose]; [abort_at] is
    the index of the first line before which [worker._abort] is seen set
    ([None]: never during the loop). On abort the child is terminated and
    [False] is returned. *)
Fixpoint create_pose_loop (abort_at : option nat) (i : nat) (st : pstate)
    (lines : list string) (rc : Z) : pstate * list event * outcome :=
  match lines with
  | [] => (st, [], Returned (Z.eqb rc 0))
  | l :: ls =>
      if match abort_at with Some k => Nat.leb k i | None => false end then
        let '(st1, e1) := pose_print st "Operation aborted by user" in
        (st1, e1, Returned false)
      else
        let '(st1, e1) := pose_print st (Py.rstrip l) in
        let '(st2, e2, o) := create_pose_loop abort_at (S i) st1 ls rc in
        (st2, e1 ++ e2, o)
  end.

(** [create_pose(json_path, pose_name, worker=self)]: [json_exists] is
    [os.path.exists(json_path)] and [exe] the result of
    [get_suspension_tools_exe()] (a path, or the message of its
    [FileNotFoundError]). *)
Definition create_pose (abort_at : option nat) (json_exists : bool)
    (exe : string + string) (json_path pose_name : string)
    (p : popen_result) (st : pstate) : pstate * list event * outcome :=
  if negb json_exists then
    (st, [], Raised ("JSON file not found at " ++ json_path)%string)
  else match exe with
  | inr msg => (st, [], Raised msg)
  | inl exe_path =>
      let args := [exe_path; "hardpoints"; "pose"; json_path; pose_name] in
      let '(st1, e1) := pose_print st ("Running: " ++ Py.join " " args)%string in
      match p with
      | PopenFails msg => (st1, e1, Raised msg)
      | PopenOk lines rc =>
          let '(st2, e2, o) := create_pose_loop abort_at 0 st1 lines rc in
          (st2, e1 ++ e2, o)
      end
  end.

(** A [PoseCreationWorker(create_pose, json_path, pose_name)] run. *)
Definition pose_run (abort_at : option nat) (abort_flag : bool)
    (json_exists : bool) (exe : string + string) (json_path pose_name : string)
    (p : popen_result) : list event * (bool * string) :=
  let '(_, evs, o) :=
    create_pose abort_at json_exists exe json_path pose_name p init_pstate in
  (evs, PoseCreationWorker_run abort_flag o).

End Runner.

Import Runner.

(** ** Abort: the workers' [abort] and [release_solidworks_command_state] *)

Module Abort.

(** The child process as seen by [abort]: whether [poll()] is [None]
    (still running) and whether [wait(timeout=2)] after [terminate()]
    returns in time. *)
Record proc := mk_proc { running : bool; exits_in_time : bool }.

(** Side effects performed by [abort]. *)
Inductive action :=
| ATerminate
| AWait
| AKill
| ARelease
| APrint (text : string).

(** What [subprocess.run([exe_path, "release"], ...)] yields: an exception
    (its [str]), or a completed process with return code, stdout and
    stderr. *)
Inductive run_result :=
| RunRaises (msg : string)
| RunDone (returncode : Z) (stdout stderr : string).

(** [release_solidworks_command_state()]; [exe] is the first existing
    candidate path, if any. *)
Definition release_solidworks_command_state (exe : option string)
    (r : run_result) : bool * string :=
  match exe with
  | None => (false, "SuspensionTools executable not found for release")
  | Some _ =>
      match r with
      | RunRaises msg => (false, msg)
      | RunDone rc out err =>
          let output := Py.strip out in
          let error := Py.strip err in
          let message :=
            if negb (String.eqb output "") then output
            else if negb (String.eqb error "") then error
            else ("release exited with code " ++ Py.str_int rc)%string in
          (Z.eqb rc 0, message)
      end
  end.

(** [terminate()], [wait(timeout=2)], and [kill()] when the wait times
    out, for a process whose [poll()] is [None]. *)
Definition stop_process (p : proc) : list action :=
  if running p then
    if exits_in_time p then [ATerminate; AWait] else [ATerminate; AWait; AKill]
  else [].

(** [abort()] of [HardpointWorker], [MarkerWorker] and [PoseCreationWorker]:
    the new [_abort] flag and the actions performed. *)
Definition HardpointWorker_abort (process : option proc) : bool * list action :=
  (true, match process with Some p => stop_process p | None => [] end).

Definition PoseCreationWorker_abort := HardpointWorker_abort.

(** [CoordinateInsertionWorker.abort()]: after stopping the child, when
    [self._process is not None], the release call is made and a failure
    is printed as a warning. *)
Definition CoordinateInsertionWorker_abort (process : option proc)
    (exe : option string) (r : run_result) : bool * list action :=
  match process with
  | None => (true, [])
  | Some p =>
      let '(released, release_message) :=
        release_solidworks_command_state exe r in
      (true, stop_process p ++ [ARelease] ++
             (if released then []
              else [APrint ("Warning: Failed to release SolidWorks state after abort: "
                            ++ release_message)%string]))
  end.

End Abort.

Import Abort.

(** ** More Python string builtins *)

Module PyText.

Definition map_chars (f : ascii -> ascii) (s : string) : string :=
  string_of_list_ascii (map f (list_ascii_of_string s)).

(** [str.upper()] and [str.lower()] on ASCII letters. *)
Definition upper_char (c : ascii) : ascii :=
  let n := nat_of_ascii c in
  if ((97 <=? n) && (n <=? 122))%nat then ascii_of_nat (n - 32) else c.

Definition lower_char (c : ascii) : ascii :=
  let n := nat_of_ascii c in
  if ((65 <=? n) && (n <=? 90))%nat then ascii_of_nat (n + 32) else c.

Definition upper (s : string) : string := map_chars upper_char s.
Definition lower (s : string) : string := map_chars lower_char s.

(** [sub in s] for strings. *)
Fixpoint contains (sub s : string) : bool :=
  String.prefix sub s ||
  match s with
  | EmptyString => false
  | String _ r => contains sub r
  end.

(** [ch in s] for a one-character string. *)
Definition contains_char (c : ascii) (s : string) : bool :=
  contains (String c EmptyString) s.

(** [s.endswith(suffix)]. *)
Definition endswith (s suffix : string) : bool :=
  (String.length suffix <=? String.length s)%nat &&
  String.eqb (substring (String.length s - String.length suffix)
                        (String.length suffix) s) suffix.

(** The double-quote character (ASCII 34). *)
Definition dquote : ascii := ascii_of_nat 34.

End PyText.

(** ** Pose names: [validate_pose_name] and the checks of
    [PoseCreationTab.create_pose] *)

Module PoseName.

(** [invalid_chars]: less-than, greater-than, colon, double quote,
    vertical bar, question mark and asterisk, in this order. *)
Definition invalid_chars : list ascii :=
  ["<"; ">"; ":"; PyText.dquote; "|"; "?"; "*"]%char.

Fixpoint first_invalid (cs : list ascii) (pose_name : string) : option ascii :=
  match cs with
  | [] => None
  | c :: cs' =>
      if PyText.contains_char c pose_name then Some c
      else first_invalid cs' pose_name
  end.

(** [validate_pose_name(pose_name)] for a [str] argument. *)
Definition validate_pose_name (pose_name : string) : bool * string :=
  if String.eqb pose_name "" || String.eqb (Py.strip pose_name) "" then
    (false, "Pose name cannot be empty")
  else match first_invalid invalid_chars pose_name with
       | Some c => (false, "Pose name cannot contain '" ++ String c "'")%string
       | None => (true, "Valid pose name")
       end.

(** Characters of the class [[a-zA-Z0-9_\- ]]. *)
Definition pose_class_char (c : ascii) : bool :=
  let n := nat_of_ascii c in
  ((97 <=? n) && (n <=? 122))%nat || ((65 <=? n) && (n <=? 90))%nat ||
  ((48 <=? n) && (n <=? 57))%nat || (n =? 95)%nat || (n =? 45)%nat ||
  (n =? 32)%nat.

(** [re.match(r"^[a-zA-Z0-9_\- ]+$", s)]: one or more class characters;
    [$] also matches before a final newline. *)
Definition pose_regex_ok (s : string) : bool :=
  let l := list_ascii_of_string s in
  let body := match rev l with
              | c :: r => if Ascii.eqb c "010" then rev r else l
              | [] => l
              end in
  negb (Nat.eqb (List.length body) 0) && forallb pose_class_char body.

(** The outcome of [PoseCreationTab.create_pose]: a warning with its title
    and text, or the worker is started. *)
Inductive tab_outcome :=
| Warn (title text : string)
| StartWorker (json_path pose_name : string).

(** [PoseCreationTab.create_pose] on the texts of the two line edits;
    [json_exists] is [os.path.exists] on the stripped JSON path. *)
Definition PoseCreationTab_create_pose (json_text pose_text : string)
    (json_exists : bool) : tab_outcome :=
  let json_path := Py.strip json_text in
  let pose_name := Py.strip pose_text in
  if String.eqb pose_name "" then Warn "Warning" "Pose name cannot be empty"
  else if negb (pose_regex_ok pose_name) then
    Warn "Invalid Name"
      "Pose name can only contain letters, numbers, spaces, hyphens and underscores"
  else if String.eqb json_path "" || String.eqb pose_name "" then
    Warn "Warning" "Please select JSON file and enter pose name"
  else let '(valid, message) := validate_pose_name pose_name in
  if negb valid then Warn "Invalid Pose Name" message
  else if negb json_exists then
    Warn "Warning" ("JSON file not found: " ++ json_path)%string
  else StartWorker json_path pose_name.

End PoseName.

(** ** [get_color_for_name] and [validate_files] (coordinate_insertion.py) *)

Module Colors.

(** [color_map], in its insertion order. *)
Definition color_map : list (string * list Z) :=
  [ ("CHAS_", [255; 0; 0]); ("UPRI_", [0; 0; 255]); ("ROCK_", [0; 128; 255]);
    ("NSMA_", [255; 192; 203]); ("PUSH_", [0; 255; 0]); ("TIER_", [255; 165; 0]);
    ("DAMP_", [128; 0; 128]); ("ARBA_", [255; 255; 0]); ("_FRONT", [0; 200; 200]);
    ("_REAR", [200; 100; 0]); ("wheel", [64; 64; 64]) ]%Z.

Definition default_color : list Z := [128; 128; 128]%Z.

Fixpoint first_color (m : list (string * list Z)) (upper : string) : list Z :=
  match m with
  | [] => default_color
  | (prefix, color) :: m' =>
      if PyText.contains (PyText.upper prefix) upper then color
      else first_color m' upper
  end.

(** [get_color_for_name(name)]. *)
Definition get_color_for_name (name : string) : list Z :=
  first_color color_map (PyText.upper name).

(** [validate_files(json_path, marker_path)]; the booleans are
    [os.path.exists] on the two paths. *)
Definition validate_files (json_path marker_path : string)
    (json_exists marker_exists : bool) : list string :=
  (if json_exists then [] else [("JSON file not found: " ++ json_path)%string]) ++
  (if marker_exists then [] else [("Marker part not found: " ++ marker_path)%string]) ++
  (if negb (String.eqb marker_path "") &&
      negb (PyText.endswith (PyText.lower marker_path) ".sldprt")
   then ["Marker file must be a .sldprt file"] else []).

End Colors.

(** ** JSON values and Python exceptions *)

Module Json.

(** A value returned by [json.load]; [F] stands for Python's [float].
    [JObj] lists the items of a [dict] in their order, keys distinct. *)
#[warnings="-register-all"]
Inductive json (F : Type) :=
| JNull
| JBool (b : bool)
| JInt (z : Z)
| JFloat (f : F)
| JStr (s : string)
| JList (l : list (json F))
| JObj (items : list (string * json F)).

Arguments JNull {F}.
Arguments JBool {F} b.
Arguments JInt {F} z.
Arguments JFloat {F} f.
Arguments JStr {F} s.
Arguments JList {F} l.
Arguments JObj {F} items.

Section JsonOps.

Context {F : Type}.

(** [bool(x)] on floats. *)
Variable f_nonzero : F -> bool.

(** [bool(v)]. *)
Definition truthy (v : json F) : bool :=
  match v with
  | JNull => false
  | JBool b => b
  | JInt z => negb (Z.eqb z 0)
  | JFloat f => f_nonzero f
  | JStr s => negb (String.eqb s "")
  | JList l => negb (Nat.eqb (List.length l) 0)
  | JObj items => negb (Nat.eqb (List.length items) 0)
  end.

End JsonOps.

(** [type(v).__name__]. *)
Definition type_name {F} (v : json F) : string :=
  match v with
  | JNull => "NoneType"
  | JBool _ => "bool"
  | JInt _ => "int"
  | JFloat _ => "float"
  | JStr _ => "str"
  | JList _ => "list"
  | JObj _ => "dict"
  end.

(** [d[k]] on the items of a [dict]. *)
Fixpoint assoc {F} (items : list (string * json F)) (k : string) : option (json F) :=
  match items with
  | [] => None
  | (k', v) :: items' => if String.eqb k k' then Some v else assoc items' k
  end.

(** [d.get(k, default)]. *)
Definition get {F} (items : list (string * json F)) (k : string)
    (default : json F) : json F :=
  match assoc items k with Some v => v | None => default end.

(** The message of the [AttributeError] for [v.attr] on a value that is not
    a [dict]. *)
Definition attr_error {F} (v : json F) (attr : string) : string :=
  ("'" ++ type_name v ++ "' object has no attribute '" ++ attr ++ "'")%string.

End Json.

Import Json.

(** A Python computation that prints (or emits) values of type [E] and
    returns an [A] or raises. *)
Module Exc.

(** The exceptions that matter here: a [KeyError] with its key, the
    [ValueError] of [float()] on a string, and any other exception with its
    [str]. *)
Inductive exn :=
| KeyError (key : string)
| ValueError (msg : string)
| Error (msg : string).

(** [str(e)]; for a [KeyError] it is the [repr] of the key. *)
Definition str_exn (e : exn) : string :=
  match e with
  | KeyError k => ("'" ++ k ++ "'")%string
  | ValueError msg => msg
  | Error msg => msg
  end.

Definition M (E A : Type) : Type := (list E * (A + exn))%type.

Definition ret {E A} (a : A) : M E A := ([], inl a).
Definition raise {E A} (e : exn) : M E A := ([], inr e).
Definition tell {E} (es : list E) : M E unit := (es, inl tt).

Definition bind {E A B} (m : M E A) (k : A -> M E B) : M E B :=
  match snd m with
  | inl a => (fst m ++ fst (k a), snd (k a))
  | inr e => (fst m, inr e)
  end.

(** [try: m except Exception as e: h(e)]. *)
Definition try_except {E A} (m : M E A) (h : exn -> M E A) : M E A :=
  match snd m with
  | inr e => (fst m ++ fst (h e), snd (h e))
  | inl a => (fst m, inl a)
  end.

Declare Scope py_scope.
Notation "c1 ;; c2" := (bind c1 (fun _ => c2))
  (at level 61, right associativity) : py_scope.
Notation "x <- c1 ;; c2" := (bind c1 (fun x => c2))
  (at level 61, c1 at next level, right associativity) : py_scope.

End Exc.

Import Exc.

(** ** Drawing a suspension (draw_suspension.py) *)

Module Draw.

Open Scope py_scope.

(** What the drawing functions produce, in order: a call
    [progress_callback(count)] or a [print(text)]. *)
Inductive ds_event :=
| DProgress (count : Z)
| DPrint (text : string).

Section Draw.

Context {F : Type}.

(** [bool(x)], [float(v)] (the float or the message of the exception),
    [a + b], [a / b], [-a], [0.0], [2.0] and [str(a)] on floats. *)
Variable f_nonzero : F -> bool.
Variable py_float : json F -> F + string.
Variables (fadd fdiv : F -> F -> F) (fneg : F -> F) (f_zero f_two : F).
Variable str_float : F -> string.

(** The message of the [TypeError] raised by [v[key]] on a value that is
    not a [dict]. *)
Variable subscript_error : json F -> string.

(** [CS_EXE] and [os.path.exists(CS_EXE)]. *)
Variable CS_EXE : string.
Variable cs_exists : bool.

(** [subprocess.run(args, capture_output=True, text=True)]. *)
Variable run : list string -> run_result.

(** The exception of a failed [float(v)]: a [ValueError] for a string
    ([TypeError] or [OverflowError] otherwise). *)
Definition float_exn (v : json F) (msg : string) : exn :=
  match v with
  | JStr _ => ValueError msg
  | _ => Error msg
  end.

Definition float_of (v : json F) : M ds_event F :=
  match py_float v with
  | inl f => ret f
  | inr msg => raise (float_exn v msg)
  end.

(** [v[k]]. *)
Definition subscript (v : json F) (k : string) : M ds_event (json F) :=
  match v with
  | JObj items =>
      match assoc items k with
      | Some x => ret x
      | None => raise (KeyError k)
      end
  | _ => raise (Error (subscript_error v))
  end.

(** [load_json(path)]: the value read, or the message of the exception. *)
Definition load_json (r : json F + string) : M ds_event (json F) :=
  match r with
  | inl v => ret v
  | inr msg => raise (Error msg)
  end.

(** [insert_coordinate_system(name, x, y, z, angle_x, angle_y, angle_z)]. *)
Definition insert_coordinate_system (name : string)
    (x y z angle_x angle_y angle_z : F) : M ds_event bool :=
  if negb cs_exists then
    raise (Error ("CoordinateRunner.exe not found at " ++ CS_EXE ++
                  ". Run 'dotnet build -c Release' in sw_drawer folder.")%string)
  else
    let args := [CS_EXE; name; str_float x; str_float y; str_float z;
                 str_float angle_x; str_float angle_y; str_float angle_z] in
    match run args with
    | RunRaises msg => raise (Error msg)
    | RunDone rc out err =>
        tell ((if String.eqb out "" then [] else [DPrint (Py.strip out)]) ++
              (if negb (Z.eqb rc 0) && negb (String.eqb err "")
               then [DPrint (Py.strip err)] else [])) ;;
        ret (Z.eqb rc 0)
    end.

(** [isinstance(coords, list) and len(coords) >= 3]. *)
Definition is_point (coords : json F) : bool :=
  match coords with
  | JList l => (3 <=? List.length l)%nat
  | _ => false
  end.

(** [count_hardpoints(suspension_data)] on the items of a [dict]. *)
Definition count_hardpoints (suspension_data : list (string * json F)) : Z :=
  fold_left
    (fun count '(section_name, section_data) =>
       if String.eqb section_name "Wheels" then count
       else match section_data with
            | JObj points =>
                fold_left (fun c '(_, coords) => if is_point coords then (c + 1)%Z else c)
                  points count
            | _ => count
            end)
    suspension_data 0%Z.

(** [count_wheels(wheels_data)]. *)
Definition count_wheels (wheels_data : json F) : Z :=
  if truthy f_nonzero wheels_data then 2%Z else 0%Z.

(** The body of the inner loop of [InsertHardpoint] for a point that passed
    the [isinstance]/[len] test; [cb] is [bool(progress_callback)]. *)
Definition insert_point (suffix : string) (x_offset : F) (cb : bool)
    (point_name : string) (coords : list (json F)) : M ds_event unit :=
  try_except
    (x0 <- float_of (nth 0 coords JNull) ;;
     let x := fadd x0 x_offset in
     y <- float_of (nth 1 coords JNull) ;;
     z <- float_of (nth 2 coords JNull) ;;
     let cs_name := (point_name ++ suffix)%string in
     _ <- insert_coordinate_system cs_name x y z f_zero f_zero f_zero ;;
     if cb then tell [DProgress 1%Z] else ret tt)
    (fun e => tell [DPrint ("Error inserting " ++ point_name ++ suffix ++ ": "
                            ++ str_exn e)%string]).

Fixpoint insert_points (suffix : string) (x_offset : F) (cb : bool)
    (points : list (string * json F)) : M ds_event unit :=
  match points with
  | [] => ret tt
  | (point_name, coords) :: points' =>
      (match coords with
       | JList l =>
           if (3 <=? List.length l)%nat
           then insert_point suffix x_offset cb point_name l else ret tt
       | _ => ret tt
       end) ;;
      insert_points suffix x_offset cb points'
  end.

(** [InsertHardpoint(suspension_data, suffix, x_offset, progress_callback)]. *)
Fixpoint InsertHardpoint (suspension_data : list (string * json F))
    (suffix : string) (x_offset : F) (cb : bool) : M ds_event unit :=
  match suspension_data with
  | [] => ret tt
  | (section_name, section_data) :: rest =>
      (if String.eqb section_name "Wheels" then ret tt
       else match section_data with
            | JObj points => insert_points suffix x_offset cb points
            | _ => ret tt
            end) ;;
      InsertHardpoint rest suffix x_offset cb
  end.

(** [float(wheels_data[key]["left"])]. *)
Definition wheel_param (wheels_data : json F) (key : string) : M ds_event F :=
  v <- subscript wheels_data key ;;
  l <- subscript v "left" ;;
  float_of l.

(** [InsertWheel(wheels_data, reference_distance, is_rear, progress_callback)]. *)
Definition InsertWheel (wheels_data : json F) (reference_distance : F)
    (is_rear cb : bool) : M ds_event unit :=
  try_except
    (half_track <- wheel_param wheels_data "Half Track" ;;
     tire_diameter <- wheel_param wheels_data "Tire Diameter" ;;
     lateral_offset <- wheel_param wheels_data "Lateral Offset" ;;
     vertical_offset <- wheel_param wheels_data "Vertical Offset" ;;
     longitudinal_offset <- wheel_param wheels_data "Longitudinal Offset" ;;
     camber <- wheel_param wheels_data "Static Camber" ;;
     toe <- wheel_param wheels_data "Static Toe" ;;
     let x_base := fadd reference_distance longitudinal_offset in
     let y_base := fadd half_track lateral_offset in
     let z := fadd (fdiv tire_diameter f_two) vertical_offset in
     let prefix := if is_rear then "R" else "F" in
     _ <- insert_coordinate_system (prefix ++ "L_wheel") x_base y_base z
            camber f_zero toe ;;
     (if cb then tell [DProgress 1%Z] else ret tt) ;;
     _ <- insert_coordinate_system (prefix ++ "R_wheel") x_base (fneg y_base) z
            (fneg camber) f_zero (fneg toe) ;;
     (if cb then tell [DProgress 1%Z] else ret tt))
    (fun e => match e with
              | KeyError _ =>
                  tell [DPrint ("Error: Missing wheel parameter " ++ str_exn e)%string]
              | ValueError _ | Error _ =>
                  tell [DPrint ("Error inserting wheels: " ++ str_exn e)%string]
              end).

(** [draw_front_suspension(front_suspension_path, progress_callback)];
    [front_json] is what [load_json] yields on the path. *)
Definition draw_front_suspension (front_json : json F + string) (cb : bool)
    : M ds_event Z :=
  front_data <- load_json front_json ;;
  match front_data with
  | JObj items =>
      let total := (count_hardpoints items +
                    count_wheels (get items "Wheels" (JObj [])))%Z in
      tell [DPrint "=== Inserting Front Hardpoints ==="] ;;
      InsertHardpoint items "_FRONT" f_zero cb ;;
      tell [DPrint "=== Inserting Front Wheels ==="] ;;
      InsertWheel (get items "Wheels" (JObj [])) f_zero false cb ;;
      ret total
  | v => raise (Error (attr_error v "items"))
  end.

(** [draw_rear_suspension(rear_suspension_path, vehicle_setup_path,
    progress_callback)]. *)
Definition draw_rear_suspension (rear_json vehicle_json : json F + string)
    (cb : bool) : M ds_event Z :=
  rear_data <- load_json rear_json ;;
  vehicle_data <- load_json vehicle_json ;;
  reference_distance <-
    (match vehicle_data with
     | JObj vitems => float_of (get vitems "Reference distance" (JFloat f_zero))
     | v => raise (Error (attr_error v "get"))
     end) ;;
  match rear_data with
  | JObj items =>
      let total := (count_hardpoints items +
                    count_wheels (get items "Wheels" (JObj [])))%Z in
      tell [DPrint "=== Inserting Rear Hardpoints ==="] ;;
      InsertHardpoint items "_REAR" reference_distance cb ;;
      tell [DPrint "=== Inserting Rear Wheels ==="] ;;
      InsertWheel (get items "Wheels" (JObj [])) reference_distance true cb ;;
      ret total
  | v => raise (Error (attr_error v "items"))
  end.

(** [draw_full_suspension(front_path, rear_path, vehicle_setup_path,
    progress_callback)]. *)
Definition draw_full_suspension (front_json rear_json vehicle_json : json F + string)
    (cb : bool) : M ds_event Z :=
  front_total <- draw_front_suspension front_json cb ;;
  rear_total <- draw_rear_suspension rear_json vehicle_json cb ;;
  ret (front_total + rear_total)%Z.

(** The [total] that [WriteSolidworksTab.import_full_suspension] computes
    from the two loaded files before it starts the worker, or the message
    of the exception it shows. *)
Definition import_full_total (front_data rear_data : json F) : Z + string :=
  match front_data with
  | JObj fitems =>
      match rear_data with
      | JObj ritems =>
          inl (count_hardpoints fitems + count_wheels (get fitems "Wheels" (JObj [])) +
               count_hardpoints ritems + count_wheels (get ritems "Wheels" (JObj [])))%Z
      | v => inr (attr_error v "items")
      end
  | v => inr (attr_error v "items")
  end.

(** Inputs on which every [float(...)] of the drawing succeeds: the first
    three coordinates of every point [InsertHardpoint] visits, and the
    seven parameters [InsertWheel] reads from a non-empty [Wheels] value. *)
Definition converts (v : json F) : bool :=
  match py_float v with inl _ => true | inr _ => false end.

Definition hardpoints_convert (suspension_data : list (string * json F)) : bool :=
  forallb (fun '(section_name, section_data) =>
    String.eqb section_name "Wheels" ||
    match section_data with
    | JObj points =>
        forallb (fun '(_, coords) =>
          match coords with
          | JList l =>
              negb (3 <=? List.length l)%nat ||
              (converts (nth 0 l JNull) && converts (nth 1 l JNull) &&
               converts (nth 2 l JNull))
          | _ => true
          end) points
    | _ => true
    end) suspension_data.

Definition wheel_keys : list string :=
  ["Half Track"; "Tire Diameter"; "Lateral Offset"; "Vertical Offset";
   "Longitudinal Offset"; "Static Camber"; "Static Toe"].

Definition wheels_convert (wheels_data : json F) : bool :=
  negb (truthy f_nonzero wheels_data) ||
  forallb (fun k => match snd (wheel_param wheels_data k) with
                    | inl _ => true | inr _ => false end) wheel_keys.

End Draw.

(** Signals of a [SolidWorksWorker]: [progress(count)] and [log(text)]. *)
Inductive sw_signal :=
| SProgress (count : Z)
| SLog (text : string).

(** [SolidWorksWorker.run()]: the operation runs with [sys.stdout] on a
    [QtStream] whose [text_written] is connected to [log]; each [print(x)]
    writes [x] and then a newline, which [QtStream.write] drops. *)
Definition SolidWorksWorker_run {A} (r : M ds_event A)
    : list sw_signal * (bool * string) :=
  let sigs := flat_map (fun e => match e with
                                 | DProgress c => [SProgress c]
                                 | DPrint t =>
                                     match QtStream_write t with
                                     | Some s => [SLog s]
                                     | None => []
                                     end
                                 end) (fst r) in
  (sigs, match snd r with
         | inl _ => (true, "Suspension imported successfully")
         | inr e => (false, str_exn e)
         end).

(** [QProgressBar.setValue(value)]: a value outside [minimum..maximum] is
    ignored, except when both bounds are 0. *)
Definition bar_set_value (minimum maximum value old : Z) : Z :=
  if ((maximum <? value) || (value <? minimum))%Z &&
     negb (Z.eqb maximum 0 && Z.eqb minimum 0)
  then old else value.

(** [WriteSolidworksTab.on_progress(count)] applied to each [progress]
    signal, from the value 0 set by [start_loading(message, total)]. *)
Definition bar_after (total : Z) (sigs : list sw_signal) : Z :=
  fold_left (fun v s => match s with
                        | SProgress c => bar_set_value 0 total (v + c) v
                        | SLog _ => v
                        end) sigs 0%Z.

(** The sum of the counts passed to [progress_callback]. *)
Definition progress_sum (evs : list ds_event) : Z :=
  fold_right (fun e acc => match e with DProgress c => (c + acc)%Z | DPrint _ => acc end)
    0%Z evs.

End Draw.

Import Draw.

(** ** Extracting hardpoints (coordinate_insertion.py, pose_creation.py) *)

Module Extract.

Open Scope py_scope.

Section Extract.

Context {F : Type}.

(** [bool(x)], [float(v)], [a / b], [-a] and [2.0] on floats. *)
Variable f_nonzero : F -> bool.
Variable py_float : json F -> F + string.
Variables (fdiv : F -> F -> F) (fneg : F -> F) (f_two : F).

(** The dict appended to [hardpoints]. *)
Record hardpoint := {
  name : string;
  x : json F;
  y : json F;
  z : json F;
  base_name : string;
  suffix : string
}.

(** [float(v)]; the computations here only print strings. *)
Definition to_float (v : json F) : M string F :=
  match py_float v with
  | inl f => ret f
  | inr msg => raise (float_exn v msg)
  end.

(** [v.get(k, default)]. *)
Definition dot_get (v : json F) (k : string) (default : json F) : M string (json F) :=
  match v with
  | JObj items => ret (get items k default)
  | v => raise (Error (attr_error v "get"))
  end.

(** The dict literal appended for a point that passed the [isinstance]/[len]
    test: its name, then [float(coords[0])], [float(coords[1])],
    [float(coords[2])]. *)
Definition point_hardpoint (sfx point_name : string) (coords : list (json F))
    : M string hardpoint :=
  let n := (point_name ++ sfx)%string in
  px <- to_float (nth 0 coords JNull) ;;
  py <- to_float (nth 1 coords JNull) ;;
  pz <- to_float (nth 2 coords JNull) ;;
  ret {| name := n; x := JFloat px; y := JFloat py; z := JFloat pz;
         base_name := point_name; suffix := sfx |}.

(** The inner loop of [extract_hardpoints_from_section], on the items of
    [section_obj]; [hardpoints] is the list so far. *)
Fixpoint points_loop (sfx : string) (points : list (string * json F))
    (hardpoints : list hardpoint) : M string (list hardpoint) :=
  match points with
  | [] => ret hardpoints
  | (point_name, coords) :: points' =>
      hardpoints' <-
        (match coords with
         | JList l =>
             if (3 <=? List.length l)%nat
             then (hp <- point_hardpoint sfx point_name l ;; ret (hardpoints ++ [hp]))
             else ret hardpoints
         | _ => ret hardpoints
         end) ;;
      points_loop sfx points' hardpoints'
  end.

(** The outer loop, on the items of [section]. *)
Fixpoint sections_loop (sfx : string) (items : list (string * json F))
    (hardpoints : list hardpoint) : M string (list hardpoint) :=
  match items with
  | [] => ret hardpoints
  | (section_name, section_obj) :: items' =>
      hardpoints' <-
        (if String.eqb section_name "Wheels" then ret hardpoints
         else match section_obj with
              | JObj points => points_loop sfx points hardpoints
              | _ => ret hardpoints
              end) ;;
      sections_loop sfx items' hardpoints'
  end.

(** [extract_hardpoints_from_section(section, suffix, hardpoints)]: the
    list [hardpoints] after the call. *)
Definition extract_hardpoints_from_section (section : json F) (sfx : string)
    (hardpoints : list hardpoint) : M string (list hardpoint) :=
  if negb (truthy f_nonzero section) then ret hardpoints
  else match section with
       | JObj items => sections_loop sfx items hardpoints
       | v => raise (Error (attr_error v "items"))
       end.

(** The four dicts [extract_wheels] appends. *)
Definition wheel_hardpoints (half_track tire_radius : F) : list hardpoint :=
  [{| name := "FL_wheel_FRONT"; x := JInt 0; y := JFloat half_track;
      z := JFloat tire_radius; base_name := "FL_wheel"; suffix := "_FRONT" |};
   {| name := "FR_wheel_FRONT"; x := JInt 0; y := JFloat (fneg half_track);
      z := JFloat tire_radius; base_name := "FR_wheel"; suffix := "_FRONT" |};
   {| name := "RL_wheel_REAR"; x := JInt 0; y := JFloat half_track;
      z := JFloat tire_radius; base_name := "RL_wheel"; suffix := "_REAR" |};
   {| name := "RR_wheel_REAR"; x := JInt 0; y := JFloat (fneg half_track);
      z := JFloat tire_radius; base_name := "RR_wheel"; suffix := "_REAR" |}].

(** [extract_wheels(wheels_data, hardpoints)]: only a [KeyError] or a
    [ValueError] is caught. *)
Definition extract_wheels (wheels_data : json F) (hardpoints : list hardpoint)
    : M string (list hardpoint) :=
  if negb (truthy f_nonzero wheels_data) then ret hardpoints
  else try_except
    (ht <- dot_get wheels_data "Half Track" (JObj []) ;;
     htl <- dot_get ht "left" (JInt 0) ;;
     half_track <- to_float htl ;;
     td <- dot_get wheels_data "Tire Diameter" (JObj []) ;;
     tdl <- dot_get td "left" (JInt 0) ;;
     tire_diameter <- to_float tdl ;;
     let tire_radius := fdiv tire_diameter f_two in
     ret (hardpoints ++ wheel_hardpoints half_track tire_radius))
    (fun e => match e with
              | KeyError _ | ValueError _ =>
                  tell [("Warning: Could not extract wheel data: " ++ str_exn e)%string] ;;
                  ret hardpoints
              | Error _ => raise e
              end).

(** [extract_hardpoints(json_data)]. *)
Definition extract_hardpoints (json_data : json F) : M string (list hardpoint) :=
  match json_data with
  | JObj items =>
      let front := get items "Front Suspension" JNull in
      let rear := get items "Rear Suspension" JNull in
      let wheels := get items "Wheels" JNull in
      hardpoints <- (if truthy f_nonzero front
                     then extract_hardpoints_from_section front "_FRONT" []
                     else ret []) ;;
      hardpoints <- (if truthy f_nonzero rear
                     then extract_hardpoints_from_section rear "_REAR" hardpoints
                     else ret hardpoints) ;;
      if truthy f_nonzero wheels then extract_wheels wheels hardpoints
      else ret hardpoints
  | v => raise (Error (attr_error v "get"))
  end.

(** pose_creation.py has the same three functions under other names, with
    the same bodies. *)
Definition extract_wheels_for_pose := extract_wheels.
Definition extract_hardpoints_for_pose := extract_hardpoints.

End Extract.

End Extract.


(** ** Predicates used in the statements *)

(** Every character of the list is one [str.strip()] keeps. *)
Definition no_space (l : list ascii) : Prop :=
  Forall (fun c => Py.is_space c = false) l.

(** Both counters of a worker are non-negative. *)
Definition counters_nonneg (st : pstate) : Prop :=
  (0 <= total_tasks st)%Z /\ (0 <= current_progress st)%Z.

(** A line whose [TOTAL:]/[PROGRESS:] field, if it parses, is non-negative. *)
Definition payload_nonneg (line : string) : Prop :=
  forall z, payload_value line = Some z -> (0 <= z)%Z.

(** Accounting of the [progress_callback] calls of a drawing. *)

(** A call [progress_callback(1)], or a print. *)
Definition unit_progress (e : ds_event) : Prop :=
  match e with DProgress c => c = 1%Z | DPrint _ => True end.

Definition is_print (e : ds_event) : Prop :=
  match e with DProgress _ => False | DPrint _ => True end.

(** At most [n] calls [progress_callback(1)] and no other callback. *)
Definition prog_le {A} (n : Z) (m : M ds_event A) : Prop :=
  Forall unit_progress (fst m) /\ (progress_sum (fst m) <= n)%Z.

(** Exactly [n] calls [progress_callback(1)], no other callback, and no
    exception. *)
Definition prog_eq {A} (n : Z) (m : M ds_event A) : Prop :=
  Forall unit_progress (fst m) /\ progress_sum (fst m) = n /\ exists a, snd m = inl a.

(** The points of a section that [count_hardpoints] counts, section by
    section. *)
Fixpoint n_points {F} (points : list (string * json F)) : Z :=
  match points with
  | [] => 0%Z
  | (_, coords) :: rest => ((if is_point coords then 1 else 0) + n_points rest)%Z
  end.

Definition n_section {F} (sec : string * json F) : Z :=
  let '(section_name, section_data) := sec in
  if String.eqb section_name "Wheels" then 0%Z
  else match section_data with JObj points => n_points points | _ => 0%Z end.

Fixpoint n_sections {F} (items : list (string * json F)) : Z :=
  match items with [] => 0%Z | s :: rest => (n_section s + n_sections rest)%Z end.

(** An instance of the drawing functions to run them on: Python floats
    taken as integers, [CoordinateRunner.exe] found or missing, and a
    [subprocess.run] that always exits with code 0 and prints nothing. *)
Module DrawSample.

Definition zf_nonzero (f : Z) : bool := negb (Z.eqb f 0).

Definition zfloat (v : json Z) : Z + string :=
  match v with
  | JInt z => inl z
  | JFloat f => inl f
  | JBool b => inl (if b then 1%Z else 0%Z)
  | JStr s => inr ("could not convert string to float: '" ++ s ++ "'")%string
  | v => inr ("float() argument must be a string or a real number, not '" ++
              type_name v ++ "'")%string
  end.

Definition zsubscript_error (v : json Z) : string :=
  ("'" ++ type_name v ++ "' object is not subscriptable")%string.

Definition zrun (args : list string) : run_result := RunDone 0 "" "".

(** [draw_full_suspension] with [progress_callback] set, on this instance. *)
Definition zdraw_full (cs_exists : bool) (front rear vehicle : json Z) : M ds_event Z :=
  draw_full_suspension zf_nonzero zfloat Z.add Z.div Z.opp 0%Z 2%Z Py.str_int
    zsubscript_error "CoordinateRunner.exe" cs_exists zrun
    (inl front) (inl rear) (inl vehicle) true.

Definition left (v : Z) : json Z := JObj [("left", JInt v)].

Definition wheels : json Z :=
  JObj [("Half Track", left 600); ("Tire Diameter", left 500);
        ("Lateral Offset", left 0); ("Vertical Offset", left 0);
        ("Longitudinal Offset", left 0); ("Static Camber", left (-1));
        ("Static Toe", left 0)].

Definition front_items : list (string * json Z) :=
  [("Chassis", JObj [("UCA_front", JList [JInt 1; JInt 2; JInt 3]);
                     ("LCA_front", JList [JInt 4; JInt 5; JInt 6])]);
   ("Wheels", wheels)].

Definition rear_items : list (string * json Z) :=
  [("Chassis", JObj [("UCA_rear", JList [JInt 7; JInt 8; JInt 9]);
                     ("Note", JStr "not a point")]);
   ("Wheels", wheels)].

Definition vehicle_items : list (string * json Z) := [("Reference distance", JInt 1550)].

(** A file read by [extract_hardpoints]: both suspensions and the wheels. *)
Definition suspension_json : json Z :=
  JObj [("Front Suspension", JObj front_items); ("Rear Suspension", JObj rear_items);
        ("Wheels", wheels)].

(** Wheels whose half track is not a number. *)
Definition bad_wheels : json Z := JObj [("Half Track", JObj [("left", JStr "wide")])].

(** [extract_hardpoints] on this instance, and the list it returns. *)
Definition zextract (json_data : json Z) : M string (list (Extract.hardpoint (F:=Z))) :=
  Extract.extract_hardpoints zf_nonzero zfloat Z.div Z.opp 2%Z json_data.

Definition no_hardpoints : list (Extract.hardpoint (F:=Z)) := [].

Definition extracted (json_data : json Z) : list (Extract.hardpoint (F:=Z)) :=
  match snd (zextract json_data) with inl r => r | inr _ => [] end.

End DrawSample.

(** ** Sample evaluations *)

Example py_int_examples :
  Py.int "42" = Some 42%Z /\ Py.int " -5 " = Some (-5)%Z /\
  Py.int "1_000" = Some 1000%Z /\ Py.int "abc" = None /\ Py.int "" = None /\
  Py.int "1__0" = None /\ Py.int "007" = Some 7%Z.
Proof. repeat split; reflexivity. Qed.

Example py_split_examples :
  Py.split ":" "STATE:Phase:2" = ["STATE"; "Phase"; "2"] /\
  Py.strip "  a b  " = "a b" /\ Py.str_int 0 = "0" /\ Py.str_int (-12) = "-12".
Proof. repeat split; reflexivity. Qed.

Example spec_ordering_example :
  feed hardpoint_write init_pstate
    ["TOTAL:10"; "PROGRESS:1"; "hello"; "STATE:Rebuilding"; "PROGRESS:2"]
  = (mk_pstate 10 2,
     [EvProgress 0 10; EvProgress 1 10; EvLog "hello";
      EvState "Rebuilding model..."; EvProgress 2 10]).
Proof. reflexivity. Qed.

Example hardpoint_run_example :
  hardpoint_run false (PopenOk ["TOTAL:2"; "STATE:Complete"] 3)
  = ([EvProgress 0 2; EvState "Complete";
      EvLog "Error: Command failed with exit code 3"],
     (false, "Command failed with exit code 3")).
Proof. reflexivity. Qed.

Example pose_run_example :
  pose_run None false true (inl "sw.exe") "a.json" "P1"
    (PopenOk ["STATE:Rebuilding"; "PROGRESS:1"] 0)
  = ([EvLog "Running: sw.exe hardpoints pose a.json P1";
      EvState "Rebuilding model..."; EvProgress 1 0],
     (true, "Pose creation completed successfully")).
Proof. reflexivity. Qed.

(** ** Facts about the Python builtins *)

Section PyFacts.

Lemma drop_spaces_id (l : list ascii) : no_space l -> Py.drop_spaces l = l.
Proof. unfold no_space; intros H; destruct H as [|c l Hc _]; simpl; [reflexivity | now rewrite Hc]. Qed.

Lemma strip_id (s : string) :
  no_space (list_ascii_of_string s) -> Py.strip s = s.
Proof.
  unfold no_space; intros H; unfold Py.strip.
  rewrite (drop_spaces_id _ H), drop_spaces_id.
  - now rewrite rev_involutive, string_of_list_ascii_of_string.
  - now apply Forall_rev.
Qed.

Lemma list_ascii_of_string_app (a b : string) :
  list_ascii_of_string (a ++ b) = list_ascii_of_string a ++ list_ascii_of_string b.
Proof. induction a as [|c a IH]; simpl; [reflexivity | now rewrite IH]. Qed.

Lemma uint_no_space (u : Decimal.uint) :
  no_space (list_ascii_of_string (NilEmpty.string_of_uint u)).
Proof. unfold no_space; induction u; simpl; constructor; auto. Qed.

Lemma uint_digits_ok (u : Decimal.uint) :
  Py.digits_ok false (NilEmpty.string_of_uint u) = true.
Proof. induction u; simpl; auto. Qed.

Lemma uint_no_underscore (u : Decimal.uint) :
  Py.remove_underscores (NilEmpty.string_of_uint u) = NilEmpty.string_of_uint u.
Proof. induction u; simpl; rewrite ?IHu; reflexivity. Qed.

Lemma uint_no_colon (u : Decimal.uint) :
  Py.split ":" (NilEmpty.string_of_uint u) = [NilEmpty.string_of_uint u].
Proof. induction u; simpl; rewrite ?IHu; reflexivity. Qed.

Lemma to_int_nonneg (n : Z) :
  (0 <= n)%Z -> exists u, Z.to_int n = Decimal.Pos u /\ u <> Decimal.Nil.
Proof.
  intros Hn. pose proof (DecimalZ.of_to n) as Hof.
  destruct n as [|p|p]; simpl in *.
  - exists (Decimal.D0 Decimal.Nil); split; [reflexivity | discriminate].
  - exists (Pos.to_uint p); split; [reflexivity|].
    intros Hu. rewrite Hu in Hof. discriminate Hof.
  - lia.
Qed.

(** [int(str(n)) == n] for a non-negative [n]. *)
Lemma int_str_int (n : Z) : (0 <= n)%Z -> Py.int (Py.str_int n) = Some n.
Proof.
  intros Hn. destruct (to_int_nonneg n Hn) as [u [Hu Hnil]].
  pose proof (DecimalZ.of_to n) as Hof. rewrite Hu in Hof.
  unfold Py.str_int. rewrite Hu. simpl NilEmpty.string_of_int.
  unfold Py.int. rewrite strip_id by apply uint_no_space.
  assert (Hv : Py.digits_value (NilEmpty.string_of_uint u) = Some n).
  { unfold Py.digits_value. rewrite uint_no_underscore, NilEmpty.usu.
    destruct u; try congruence; simpl; rewrite uint_digits_ok; rewrite <- Hof; reflexivity. }
  destruct u; try congruence; exact Hv.
Qed.

Lemma str_int_no_space (n : Z) :
  (0 <= n)%Z -> no_space (list_ascii_of_string (Py.str_int n)).
Proof.
  intros Hn. destruct (to_int_nonneg n Hn) as [u [Hu _]].
  unfold Py.str_int. rewrite Hu. apply uint_no_space.
Qed.

Lemma str_int_no_colon (n : Z) :
  (0 <= n)%Z -> Py.split ":" (Py.str_int n) = [Py.str_int n].
Proof.
  intros Hn. destruct (to_int_nonneg n Hn) as [u [Hu _]].
  unfold Py.str_int. rewrite Hu. apply uint_no_colon.
Qed.

Lemma split_nonnil (sep : ascii) (s : string) : Py.split sep s <> [].
Proof.
  destruct s as [|c s]; simpl; [discriminate|].
  destruct (Ascii.eqb c sep); [discriminate|].
  destruct (Py.split sep s); discriminate.
Qed.

(** Splitting a colon-free prefix glued to a string. *)
Lemma split_app_no_colon (a b : string) :
  Py.split ":" a = [a] ->
  Py.split ":" (a ++ b) = (a ++ hd "" (Py.split ":" b))%string :: tl (Py.split ":" b).
Proof.
  revert b. induction a as [|c a IH]; intros b H.
  - simpl. destruct (Py.split ":" b) eqn:E; [exfalso; exact (split_nonnil _ _ E) | reflexivity].
  - simpl in H |- *. destruct (Ascii.eqb c ":") eqn:Ec; [discriminate|].
    destruct (Py.split ":" a) as [|p ps] eqn:Ea; [exfalso; exact (split_nonnil _ _ Ea)|].
    injection H as Hp Hps. subst p ps.
    rewrite (IH b eq_refl). reflexivity.
Qed.

End PyFacts.

(** ** Facts about the line handlers *)

Section ProtocolFacts.

Lemma strip_prefixed (p w : string) :
  no_space (list_ascii_of_string p) -> no_space (list_ascii_of_string w) ->
  Py.strip (p ++ w) = (p ++ w)%string.
Proof.
  intros Hp Hw. apply strip_id. rewrite list_ascii_of_string_app.
  now apply Forall_app.
Qed.

Lemma field1_after (p w : string) :
  Py.split ":" p = [p] -> field1 (p ++ String ":" w) = hd "" (Py.split ":" w).
Proof.
  intros Hp. unfold field1. rewrite (split_app_no_colon p _ Hp). simpl.
  destruct (Py.split ":" w) eqn:E; [exfalso; exact (split_nonnil _ _ E) | reflexivity].
Qed.

(** A directive line built from a keyword and a non-negative number is
    already trimmed, and its field after the colon is the number. *)
Lemma number_line (kw : string) (n : Z) :
  (0 <= n)%Z -> no_space (list_ascii_of_string kw) -> Py.split ":" kw = [kw] ->
  Py.strip (kw ++ String ":" (Py.str_int n)) = (kw ++ String ":" (Py.str_int n))%string
  /\ field1 (kw ++ String ":" (Py.str_int n)) = Py.str_int n.
Proof.
  intros Hn Hkw Hc. split.
  - apply strip_prefixed; [exact Hkw|]. constructor; [reflexivity|].
    now apply str_int_no_space.
  - rewrite field1_after by exact Hc. now rewrite str_int_no_colon.
Qed.

Lemma startswith_app (p w : string) : Py.startswith (p ++ w) p = true.
Proof.
  unfold Py.startswith. induction p as [|c p IH]; [destruct w; reflexivity|].
  simpl. destruct (ascii_dec c c); congruence.
Qed.

Lemma worker_write_trimmed descr st line :
  Py.strip line = line -> String.eqb line "" = false ->
  worker_write descr st line = handle_log descr st line.
Proof.
  intros Hs He. unfold worker_write, QtStream_write. now rewrite Hs, He.
Qed.

End ProtocolFacts.

Ltac kw_facts := unfold no_space; repeat constructor.

(** ** C5: a [TOTAL:n] line *)

(** C5. For every [n >= 0] and every worker state, the line [TOTAL:n]
    (written to a worker's [sys.stdout], whatever its state table, or read
    by [run_hardpoint_command]) sets [total] to [n], keeps [current], and
    emits exactly one progress event [(current, n)]; nothing is compared
    with the previous total. *)
Theorem total_line_sets_total (descr : list (string * string)) (st : pstate)
    (n : Z) (Hn : (0 <= n)%Z) :
  worker_write descr st ("TOTAL:" ++ Py.str_int n)
    = (mk_pstate n (current_progress st), [EvProgress (current_progress st) n])
  /\ rhc_line st ("TOTAL:" ++ Py.str_int n)
    = (mk_pstate n (current_progress st), [EvProgress (current_progress st) n]).
Proof.
  destruct (number_line "TOTAL" n Hn ltac:(kw_facts) eq_refl) as [Hs Hf].
  change ("TOTAL" ++ String ":" (Py.str_int n))%string
    with ("TOTAL:" ++ Py.str_int n)%string in Hs, Hf.
  split.
  - rewrite worker_write_trimmed by (exact Hs || reflexivity).
    unfold handle_log, parse_output_line. rewrite startswith_app.
    rewrite Hf, (int_str_int n Hn). reflexivity.
  - unfold rhc_line. rewrite Hs. rewrite startswith_app.
    rewrite Hf, (int_str_int n Hn). reflexivity.
Qed.

(** ** C6: a [PROGRESS:n] line *)

Lemma progress_step (descr : list (string * string)) (st : pstate) (n : Z) :
  (0 <= n)%Z ->
  worker_write descr st ("PROGRESS:" ++ Py.str_int n)
    = (mk_pstate (total_tasks st) n, [EvProgress n (total_tasks st)])
  /\ rhc_line st ("PROGRESS:" ++ Py.str_int n)
    = (mk_pstate (total_tasks st) n, [EvProgress n (total_tasks st)]).
Proof.
  intros Hn.
  destruct (number_line "PROGRESS" n Hn ltac:(kw_facts) eq_refl) as [Hs Hf].
  change ("PROGRESS" ++ String ":" (Py.str_int n))%string
    with ("PROGRESS:" ++ Py.str_int n)%string in Hs, Hf.
  split.
  - rewrite worker_write_trimmed by (exact Hs || reflexivity).
    unfold handle_log, parse_output_line. simpl (Py.startswith _ "TOTAL:").
    rewrite startswith_app, Hf, (int_str_int n Hn). reflexivity.
  - unfold rhc_line. rewrite Hs. simpl (String.eqb _ "").
    simpl (Py.startswith _ "TOTAL:").
    rewrite startswith_app, Hf, (int_str_int n Hn). reflexivity.
Qed.

(** C6. For every [n >= 0], the line [PROGRESS:n] sets [current] to [n]
    itself (not added to the old value) and emits the progress event
    [(n, total)]; a following [PROGRESS:m] sets [current] to [m] whatever
    [n] was. Both for a worker's [sys.stdout] handler (any state table) and
    for the reading loop of [run_hardpoint_command]. *)
Theorem progress_line_sets_current (descr : list (string * string))
    (st : pstate) (n m : Z) (Hn : (0 <= n)%Z) (Hm : (0 <= m)%Z) :
  worker_write descr st ("PROGRESS:" ++ Py.str_int n)
    = (mk_pstate (total_tasks st) n, [EvProgress n (total_tasks st)])
  /\ feed (worker_write descr) st
       ["PROGRESS:" ++ Py.str_int n; "PROGRESS:" ++ Py.str_int m]%string
     = (mk_pstate (total_tasks st) m,
        [EvProgress n (total_tasks st); EvProgress m (total_tasks st)])
  /\ rhc_line st ("PROGRESS:" ++ Py.str_int n)
    = (mk_pstate (total_tasks st) n, [EvProgress n (total_tasks st)])
  /\ feed rhc_line st
       ["PROGRESS:" ++ Py.str_int n; "PROGRESS:" ++ Py.str_int m]%string
     = (mk_pstate (total_tasks st) m,
        [EvProgress n (total_tasks st); EvProgress m (total_tasks st)]).
Proof.
  destruct (progress_step descr st n Hn) as [Hw1 Hr1].
  destruct (progress_step descr (mk_pstate (total_tasks st) n) m Hm) as [Hw2 Hr2].
  simpl total_tasks in Hw2, Hr2.
  repeat split; cbn [feed]; try assumption.
  - rewrite Hw1, Hw2. reflexivity.
  - rewrite Hr1, Hr2. reflexivity.
Qed.

Lemma progress_line_sets_current_witness :
  (0 <= 4)%Z /\ (0 <= 2)%Z /\
  feed hardpoint_write (mk_pstate 10 7)
    ["PROGRESS:" ++ Py.str_int 4; "PROGRESS:" ++ Py.str_int 2]%string
  = (mk_pstate 10 2, [EvProgress 4 10; EvProgress 2 10]).
Proof.
  split; [lia|]. split; [lia|].
  apply (progress_line_sets_current HardpointWorker_state_descriptions
           (mk_pstate 10 7) 4 2); lia.
Defined.

Lemma total_line_sets_total_witness :
  (0 <= 12)%Z /\
  rhc_line (mk_pstate 12 3) ("TOTAL:" ++ Py.str_int 12)
  = (mk_pstate 12 3, [EvProgress 3 12]).
Proof.
  split; [lia|].
  apply (total_line_sets_total HardpointWorker_state_descriptions
           (mk_pstate 12 3) 12); lia.
Defined.

(** ** C8: blank lines *)

(** C8. A line that is empty or whitespace-only after [strip()] emits no
    event and leaves the worker fields unchanged, both when written to a
    worker's [sys.stdout] ([QtStream.write] drops it) and when read by
    [run_hardpoint_command] ([if line:] skips it). *)
Theorem blank_line_emits_nothing (descr : list (string * string))
    (st : pstate) (line : string) (Hblank : Py.strip line = "") :
  worker_write descr st line = (st, []) /\ rhc_line st line = (st, []).
Proof.
  split.
  - unfold worker_write, QtStream_write. now rewrite Hblank.
  - unfold rhc_line. now rewrite Hblank.
Qed.

Lemma blank_line_emits_nothing_witness :
  Py.strip "   " = "" /\
  hardpoint_write (mk_pstate 4 1) "   " = (mk_pstate 4 1, []) /\
  rhc_line (mk_pstate 4 1) "   " = (mk_pstate 4 1, []).
Proof.
  split; [reflexivity|].
  apply (blank_line_emits_nothing HardpointWorker_state_descriptions
           (mk_pstate 4 1) "   "); reflexivity.
Defined.

(** ** C7: unparsable numeric payloads *)

(** The remainder after the first colon of [TOTAL:5:abc] is not an integer,
    yet the line sets [total] to 5 and emits a progress event: the code
    parses [line.split(":")[1]], the text up to the second colon. *)
Lemma total_payload_after_colon_counterexample :
  Py.int "5:abc" = None /\
  hardpoint_write init_pstate "TOTAL:5:abc" = (mk_pstate 5 0, [EvProgress 0 5]) /\
  rhc_line init_pstate "TOTAL:5:abc" = (mk_pstate 5 0, [EvProgress 0 5]).
Proof. repeat split; reflexivity. Qed.

(** C7 (as amended). A [TOTAL:] or [PROGRESS:] line (after [strip()])
    whose field [line.split(":")[1]] is not accepted by [int()] raises
    nothing (the model is total; the code wraps the parse in
    [try/except]), changes neither [total] nor [current], and emits no
    event, in both line handlers. *)
Theorem unparsable_field_ignored (descr : list (string * string))
    (st : pstate) (line : string)
    (Hkw : (Py.startswith (Py.strip line) "TOTAL:"
            || Py.startswith (Py.strip line) "PROGRESS:") = true)
    (Hint : Py.int (field1 (Py.strip line)) = None) :
  worker_write descr st line = (st, []) /\ rhc_line st line = (st, []).
Proof.
  assert (Hne : String.eqb (Py.strip line) "" = false).
  { destruct (String.eqb (Py.strip line) "") eqn:E; [|reflexivity].
    apply String.eqb_eq in E. rewrite E in Hkw. discriminate Hkw. }
  split.
  - unfold worker_write, QtStream_write. rewrite Hne.
    unfold handle_log, parse_output_line.
    destruct (Py.startswith (Py.strip line) "TOTAL:"); simpl in Hkw.
    + now rewrite Hint.
    + now rewrite Hkw, Hint.
  - unfold rhc_line. rewrite Hne.
    destruct (Py.startswith (Py.strip line) "TOTAL:"); simpl in Hkw.
    + now rewrite Hint.
    + now rewrite Hkw, Hint.
Qed.

Lemma unparsable_field_ignored_witness :
  (Py.startswith (Py.strip "TOTAL:abc") "TOTAL:"
   || Py.startswith (Py.strip "TOTAL:abc") "PROGRESS:") = true /\
  Py.int (field1 (Py.strip "TOTAL:abc")) = None /\
  hardpoint_write (mk_pstate 3 2) "TOTAL:abc" = (mk_pstate 3 2, []) /\
  rhc_line (mk_pstate 3 2) "TOTAL:abc" = (mk_pstate 3 2, []).
Proof.
  split; [reflexivity|]. split; [reflexivity|].
  apply (unparsable_field_ignored HardpointWorker_state_descriptions
           (mk_pstate 3 2) "TOTAL:abc"); reflexivity.
Defined.

(** ** C3 and C4: [STATE:] lines *)

Lemma append_empty (s : string) : (s ++ "")%string = s.
Proof. induction s as [|c s IH]; simpl; [reflexivity | now rewrite IH]. Qed.

Lemma dict_get_missing (d : list (string * string)) (k : string) :
  ~ In k (map fst d) -> Py.dict_get d k k = k.
Proof.
  induction d as [|[k' v] d IH]; intros Hk; simpl; [reflexivity|].
  simpl in Hk. destruct (String.eqb k k') eqn:E.
  - apply String.eqb_eq in E. subst. tauto.
  - apply IH. tauto.
Qed.

(** The line [STATE:Phase:2] yields the token [Phase], not [Phase:2]. *)
Lemma state_token_counterexample :
  hardpoint_write init_pstate "STATE:Phase:2" = (init_pstate, [EvState "Phase"]) /\
  rhc_line init_pstate "STATE:Phase:2" = (init_pstate, [EvState "Phase"]).
Proof. split; reflexivity. Qed.

(** C3 (as amended). For a trimmed line [STATE:] ++ tok ++ rest where
    [tok] has no colon and [rest] is empty or starts with a colon, the
    phase token is [tok], the text between the first colon and the next
    one ([line.split(":")[1]]): a worker's handler emits the state-changed
    event with [state_descriptions.get(tok, tok)], which is [tok] itself
    when [tok] is not in the table; such a token [run_hardpoint_command]
    also emits as it is. Neither emits a log line nor touches the
    counters. *)
Theorem state_token_is_first_field (descr : list (string * string))
    (st : pstate) (tok rest : string)
    (Htok : Py.split ":" tok = [tok])
    (Hrest : rest = "" \/ exists r, rest = String ":" r)
    (Htrim : Py.strip ("STATE:" ++ tok ++ rest) = ("STATE:" ++ tok ++ rest)%string) :
  worker_write descr st ("STATE:" ++ tok ++ rest)
    = (st, [EvState (Py.dict_get descr tok tok)])
  /\ (~ In tok (map fst descr) ->
      Py.dict_get descr tok tok = tok
      /\ rhc_line st ("STATE:" ++ tok ++ rest) = (st, [EvState tok])).
Proof.
  assert (Hf : field1 ("STATE:" ++ tok ++ rest) = tok).
  { change ("STATE:" ++ tok ++ rest)%string
      with ("STATE" ++ String ":" (tok ++ rest))%string.
    rewrite field1_after by reflexivity.
    rewrite (split_app_no_colon tok rest Htok).
    destruct Hrest as [-> | [r ->]]; simpl; apply append_empty. }
  split.
  - rewrite worker_write_trimmed by (exact Htrim || reflexivity).
    unfold handle_log, parse_output_line. simpl (Py.startswith _ "TOTAL:").
    simpl (Py.startswith _ "PROGRESS:").
    rewrite startswith_app, Hf. reflexivity.
  - intros Hn. split; [now apply dict_get_missing|].
    unfold rhc_line. rewrite Htrim. simpl (String.eqb _ "").
    simpl (Py.startswith _ "TOTAL:"). simpl (Py.startswith _ "PROGRESS:").
    rewrite startswith_app, Hf. reflexivity.
Qed.

Lemma state_token_is_first_field_witness :
  Py.split ":" "Phase" = ["Phase"] /\
  Py.strip "STATE:Phase:2" = "STATE:Phase:2" /\
  hardpoint_write init_pstate ("STATE:" ++ "Phase" ++ ":2")
    = (init_pstate, [EvState (Py.dict_get HardpointWorker_state_descriptions
                                "Phase" "Phase")]) /\
  ~ In "Phase" (map fst HardpointWorker_state_descriptions) /\
  rhc_line init_pstate ("STATE:" ++ "Phase" ++ ":2") = (init_pstate, [EvState "Phase"]).
Proof.
  assert (Hn : ~ In "Phase" (map fst HardpointWorker_state_descriptions)).
  { simpl. intros H. repeat (destruct H as [H|H]; [discriminate H|]). exact H. }
  split; [reflexivity|]. split; [reflexivity|].
  destruct (state_token_is_first_field HardpointWorker_state_descriptions
              init_pstate "Phase" ":2" eq_refl
              (or_intror (ex_intro _ "2" eq_refl)) eq_refl) as [H1 H3].
  split; [exact H1|]. split; [exact Hn|]. exact (proj2 (H3 Hn)).
Defined.

(** C4. Written to a [HardpointWorker]'s [sys.stdout], [STATE:Rebuilding]
    gives one state-changed event ["Rebuilding model..."] and no log line;
    read by [run_hardpoint_command] (the operation every [HardpointWorker]
    in the GUI runs), it gives one state-changed event with the raw token
    ["Rebuilding"], as that loop does not consult [state_descriptions]. *)
Theorem state_rebuilding_two_paths :
  hardpoint_write init_pstate "STATE:Rebuilding"
    = (init_pstate, [EvState "Rebuilding model..."])
  /\ hardpoint_run false (PopenOk ["STATE:Rebuilding"] 0)
    = ([EvState "Rebuilding"], (true, "Operation completed successfully")).
Proof. split; reflexivity. Qed.

(** ** C10: signs of the counters *)

(** [PROGRESS:-5] is accepted by [int()] and stored: [current] becomes
    negative. *)
Lemma negative_progress_counterexample :
  feed hardpoint_write init_pstate ["PROGRESS:-5"]
    = (mk_pstate 0 (-5), [EvProgress (-5) 0]) /\
  feed rhc_line init_pstate ["PROGRESS:-5"]
    = (mk_pstate 0 (-5), [EvProgress (-5) 0]).
Proof. split; reflexivity. Qed.

Section Counters.

Lemma feed_preserves (step : pstate -> string -> pstate * list event) :
  (forall st l, counters_nonneg st -> payload_nonneg l ->
                counters_nonneg (fst (step st l))) ->
  forall lines st, counters_nonneg st -> Forall payload_nonneg lines ->
  counters_nonneg (fst (feed step st lines)).
Proof.
  intros Hstep lines. induction lines as [|l ls IH]; intros st Hst Hls;
    simpl; [exact Hst|].
  inversion Hls as [|? ? Hl Hls']; subst.
  specialize (Hstep st l Hst Hl).
  destruct (step st l) as [st1 e1]; simpl in Hstep.
  specialize (IH st1 Hstep Hls').
  destruct (feed step st1 ls) as [st2 e2]; exact IH.
Qed.

Lemma parse_preserves descr st t :
  counters_nonneg st ->
  (forall z, (if Py.startswith t "TOTAL:" || Py.startswith t "PROGRESS:"
              then Py.int (field1 t) else None) = Some z -> (0 <= z)%Z) ->
  counters_nonneg (fst (handle_log descr st t)).
Proof.
  intros [Ht Hc] Hz. unfold handle_log, parse_output_line.
  destruct (Py.startswith t "TOTAL:"); simpl in Hz.
  - destruct (Py.int (field1 t)) as [z|]; simpl; [|split; assumption].
    specialize (Hz z eq_refl). split; simpl; assumption.
  - destruct (Py.startswith t "PROGRESS:"); simpl in Hz.
    + destruct (Py.int (field1 t)) as [z|]; simpl; [|split; assumption].
      specialize (Hz z eq_refl). split; simpl; assumption.
    + destruct (Py.startswith t "STATE:"); split; assumption.
Qed.

Lemma worker_write_preserves descr st l :
  counters_nonneg st -> payload_nonneg l ->
  counters_nonneg (fst (worker_write descr st l)).
Proof.
  intros Hst Hl. unfold worker_write, QtStream_write.
  destruct (String.eqb (Py.strip l) ""); [exact Hst|].
  apply parse_preserves; [exact Hst|]. exact Hl.
Qed.

Lemma rhc_line_preserves st l :
  counters_nonneg st -> payload_nonneg l ->
  counters_nonneg (fst (rhc_line st l)).
Proof.
  intros [Ht Hc] Hl. unfold payload_nonneg, payload_value in Hl.
  unfold rhc_line.
  destruct (String.eqb (Py.strip l) ""); [split; assumption|].
  destruct (Py.startswith (Py.strip l) "TOTAL:"); simpl in Hl.
  - destruct (Py.int (field1 (Py.strip l))) as [z|]; simpl; [|split; assumption].
    specialize (Hl z eq_refl). split; simpl; assumption.
  - destruct (Py.startswith (Py.strip l) "PROGRESS:"); simpl in Hl.
    + destruct (Py.int (field1 (Py.strip l))) as [z|]; simpl; [|split; assumption].
      specialize (Hl z eq_refl). split; simpl; assumption.
    + destruct (Py.startswith (Py.strip l) "STATE:"); split; assumption.
Qed.

End Counters.

(** C10 (as amended). The parser stores whatever integer a [TOTAL:] or
    [PROGRESS:] line carries, negative ones included. Starting from
    [current = 0, total = 0], both counters stay non-negative as long as
    every such line whose field parses carries a non-negative integer; in
    both line handlers. *)
Theorem counters_nonneg_if_payloads_nonneg (descr : list (string * string))
    (lines : list string) (Hlines : Forall payload_nonneg lines) :
  counters_nonneg (fst (feed (worker_write descr) init_pstate lines))
  /\ counters_nonneg (fst (feed rhc_line init_pstate lines)).
Proof.
  assert (H0 : counters_nonneg init_pstate) by (split; simpl; lia).
  split; apply feed_preserves; auto.
  - apply worker_write_preserves.
  - apply rhc_line_preserves.
Qed.

Lemma counters_nonneg_if_payloads_nonneg_witness :
  Forall payload_nonneg ["TOTAL:10"; "PROGRESS:3"; "hello"; "PROGRESS:x"] /\
  fst (feed hardpoint_write init_pstate
         ["TOTAL:10"; "PROGRESS:3"; "hello"; "PROGRESS:x"]) = mk_pstate 10 3 /\
  counters_nonneg (fst (feed hardpoint_write init_pstate
         ["TOTAL:10"; "PROGRESS:3"; "hello"; "PROGRESS:x"])).
Proof.
  assert (Hl : Forall payload_nonneg ["TOTAL:10"; "PROGRESS:3"; "hello"; "PROGRESS:x"]).
  { repeat constructor; intros z Hz; vm_compute in Hz;
      (discriminate Hz || (injection Hz as <-; lia)). }
  split; [exact Hl|]. split; [reflexivity|].
  exact (proj1 (counters_nonneg_if_payloads_nonneg
                  HardpointWorker_state_descriptions _ Hl)).
Defined.

(** ** C1 and C2: the terminal notification *)

(** A [HardpointWorker] running [run_hardpoint_command], not aborted,
    whose child exits with a nonzero code [rc], finishes with
    [(False, "Command failed with exit code <rc>")]. *)
Lemma hardpoint_nonzero_exit (lines : list string) (rc : Z) :
  rc <> 0%Z ->
  snd (hardpoint_run false (PopenOk lines rc)) = (false, exit_code_message rc).
Proof.
  intros Hrc. unfold hardpoint_run, run_hardpoint_command.
  destruct (feed rhc_line init_pstate lines) as [st' evs].
  destruct (Z.eqb_spec rc 0); [contradiction | reflexivity].
Qed.

Lemma create_pose_loop_no_abort i st lines rc :
  exists st' evs,
    create_pose_loop None i st lines rc = (st', evs, Returned (Z.eqb rc 0)).
Proof.
  revert i st. induction lines as [|l ls IH]; intros i st; simpl; [eauto|].
  destruct (pose_print st (Py.rstrip l)) as [st1 e1].
  destruct (IH (S i) st1) as [st2 [e2 ->]]. eauto.
Qed.

(** A [PoseCreationWorker] running [create_pose], not aborted, finishes
    with [(True, "Pose creation completed successfully")] whatever the
    child's exit code: [create_pose] returns [False] on a nonzero code and
    [run] ignores the returned value. *)
Lemma pose_exit_code_ignored exe json_path pose_name lines rc :
  snd (pose_run None false true (inl exe) json_path pose_name
         (PopenOk lines rc))
  = (true, "Pose creation completed successfully").
Proof.
  unfold pose_run, create_pose. simpl negb; cbv iota.
  destruct (pose_print init_pstate _) as [st1 e1].
  destruct (create_pose_loop_no_abort 0 st1 lines rc) as [st2 [e2 ->]].
  reflexivity.
Qed.

(** C1. Exit code 3, no abort: the [HardpointWorker] running
    [run_hardpoint_command] reports [(False, "Command failed with exit code
    3")], but the [PoseCreationWorker] running [create_pose] reports
    [(True, "Pose creation completed successfully")]. *)
Theorem nonzero_exit_terminal_result :
  snd (hardpoint_run false (PopenOk ["STATE:Rebuilding"] 3))
    = (false, "Command failed with exit code 3")
  /\ snd (pose_run None false true (inl "sw_drawer.exe") "Front_Suspension.json"
            "Static" (PopenOk ["STATE:Rebuilding"] 3))
    = (true, "Pose creation completed successfully").
Proof. split; reflexivity. Qed.

(** C2. Once [self._abort] is set when the operation has returned or
    raised, every worker reports [(False, "Operation aborted")], whatever
    the operation returned, whatever it raised, and whatever the child's
    exit code or launch failure was. *)
Theorem abort_flag_wins :
  (forall success_msg o, worker_run success_msg true o = (false, "Operation aborted"))
  /\ (forall o, HardpointWorker_run true o = (false, "Operation aborted"))
  /\ (forall o, PoseCreationWorker_run true o = (false, "Operation aborted"))
  /\ (forall o, CoordinateInsertionWorker_run true o = (false, "Operation aborted"))
  /\ (forall p, snd (hardpoint_run true p) = (false, "Operation aborted"))
  /\ (forall abort_at json_exists exe json_path pose_name p,
        snd (pose_run abort_at true json_exists exe json_path pose_name p)
        = (false, "Operation aborted")).
Proof.
  assert (Hw : forall m o, worker_run m true o = (false, "Operation aborted"))
    by (intros m [v|msg]; reflexivity).
  split; [exact Hw|]. split; [intros; apply Hw|]. split; [intros; apply Hw|].
  split; [intros; apply Hw|]. split.
  - intros p. unfold hardpoint_run.
    destruct (run_hardpoint_command init_pstate p) as [[st evs] o]. apply Hw.
  - intros. unfold pose_run.
    destruct (create_pose _ _ _ _ _ _ _) as [[st evs] o]. apply Hw.
Qed.

(** ** C9: abort and the release call *)

(** [CoordinateInsertionWorker.abort()] on a run with a child process
    always makes the release call; a failed release only adds the printed
    warning; the flag is set, so the run ends with
    [(False, "Operation aborted")]. *)
Lemma coordinate_abort_release_logged (p : proc) (exe : option string)
    (r : run_result) (o : outcome) :
  let '(released, msg) := release_solidworks_command_state exe r in
  CoordinateInsertionWorker_abort (Some p) exe r
    = (true, stop_process p ++ [ARelease] ++
             (if released then []
              else [APrint ("Warning: Failed to release SolidWorks state after abort: "
                            ++ msg)%string]))
  /\ CoordinateInsertionWorker_run
       (fst (CoordinateInsertionWorker_abort (Some p) exe r)) o
     = (false, "Operation aborted").
Proof.
  unfold CoordinateInsertionWorker_abort.
  destruct (release_solidworks_command_state exe r) as [released msg].
  split; [reflexivity|]. destruct o; reflexivity.
Qed.

(** [HardpointWorker.abort()] (and the identical [PoseCreationWorker] and
    [MarkerWorker] ones) never makes the release call. *)
Lemma hardpoint_abort_no_release (process : option proc) :
  ~ In ARelease (snd (HardpointWorker_abort process)).
Proof.
  destruct process as [[[|] [|]]|]; simpl; intuition discriminate.
Qed.

(** C9. Aborting a running child: [HardpointWorker.abort()] and
    [PoseCreationWorker.abort()] terminate it (killing it when the wait
    times out) and make no release call;
    [CoordinateInsertionWorker.abort()] terminates it, makes the release
    call and, when no release executable is found, only prints the
    warning, and its run still ends with [(False, "Operation aborted")]. *)
Theorem abort_release_only_in_coordinate_worker :
  HardpointWorker_abort (Some (mk_proc true true)) = (true, [ATerminate; AWait])
  /\ PoseCreationWorker_abort (Some (mk_proc true false))
     = (true, [ATerminate; AWait; AKill])
  /\ CoordinateInsertionWorker_abort (Some (mk_proc true true)) None (RunRaises "")
     = (true, [ATerminate; AWait; ARelease;
               APrint "Warning: Failed to release SolidWorks state after abort: SuspensionTools executable not found for release"])
  /\ CoordinateInsertionWorker_run true
       (Raised "Command failed with exit code 1") = (false, "Operation aborted").
Proof. repeat split; reflexivity. Qed.

Example pose_name_examples :
  PoseName.validate_pose_name "   " = (false, "Pose name cannot be empty") /\
  PoseName.validate_pose_name "a:b<c" = (false, "Pose name cannot contain '<'") /\
  PoseName.validate_pose_name "Static" = (true, "Valid pose name") /\
  PoseName.pose_regex_ok "Bump 1-a_b" = true /\ PoseName.pose_regex_ok "a:b" = false /\
  Colors.get_color_for_name "FL_wheel_FRONT" = [0; 200; 200]%Z /\
  Colors.get_color_for_name "upri_x_rear" = [0; 0; 255]%Z /\
  Colors.get_color_for_name "xyz" = [128; 128; 128]%Z /\
  Colors.validate_files "a.json" "m.SLDPRT" true true = [] /\
  Colors.validate_files "a.json" "m.step" true true = ["Marker file must be a .sldprt file"].
Proof. repeat split; reflexivity. Qed.

(** ** Facts about [strip], [contains] and [upper] *)

Section TextFacts.

Lemma drop_spaces_suffix (l : list ascii) : exists p, l = p ++ Py.drop_spaces l.
Proof.
  induction l as [|c r [p Hp]]; simpl; [exists []; reflexivity|].
  destruct (Py.is_space c); [exists (c :: p); simpl; now f_equal | exists []; reflexivity].
Qed.

Lemma drop_spaces_length (l : list ascii) :
  (List.length (Py.drop_spaces l) <= List.length l)%nat.
Proof. induction l as [|c r IH]; simpl; [lia|]. destruct (Py.is_space c); simpl; lia. Qed.

Lemma drop_spaces_head (l : list ascii) :
  forall c r, Py.drop_spaces l = c :: r -> Py.is_space c = false.
Proof.
  induction l as [|c0 l IH]; simpl; intros c r H; [discriminate|].
  destruct (Py.is_space c0) eqn:E; [eapply IH; eauto|]. congruence.
Qed.

Lemma drop_spaces_idem (l : list ascii) :
  Py.drop_spaces (Py.drop_spaces l) = Py.drop_spaces l.
Proof.
  destruct (Py.drop_spaces l) as [|c r] eqn:E; [reflexivity|]. simpl.
  now rewrite (drop_spaces_head l c r E).
Qed.

Lemma drop_spaces_fixed_head (c : ascii) (r : list ascii) :
  Py.drop_spaces (c :: r) = c :: r -> Py.is_space c = false.
Proof.
  simpl. destruct (Py.is_space c); [|reflexivity].
  intros H. pose proof (drop_spaces_length r) as Hl. rewrite H in Hl. simpl in Hl. lia.
Qed.

Lemma drop_rev_drop_rev (a : list ascii) :
  Py.drop_spaces a = a ->
  Py.drop_spaces (rev (Py.drop_spaces (rev a))) = rev (Py.drop_spaces (rev a)).
Proof.
  intros Ha. destruct (drop_spaces_suffix (rev a)) as [p Hp].
  destruct (rev (Py.drop_spaces (rev a))) as [|c r] eqn:E; [reflexivity|].
  assert (HA : a = c :: r ++ rev p).
  { rewrite <- (rev_involutive a), Hp, rev_app_distr, E. reflexivity. }
  rewrite HA in Ha. apply drop_spaces_fixed_head in Ha. simpl. now rewrite Ha.
Qed.

(** [s.strip().strip() == s.strip()]. *)
Lemma strip_idem (t : string) : Py.strip (Py.strip t) = Py.strip t.
Proof.
  unfold Py.strip at 2 3. unfold Py.strip.
  rewrite list_ascii_of_string_of_list_ascii.
  set (A := Py.drop_spaces (list_ascii_of_string t)).
  rewrite (drop_rev_drop_rev A (drop_spaces_idem _)).
  rewrite rev_involutive. unfold A. rewrite drop_spaces_idem. reflexivity.
Qed.

(** The last character of a stripped string is not whitespace. *)
Lemma strip_last (t : string) :
  forall c r, rev (list_ascii_of_string (Py.strip t)) = c :: r -> Py.is_space c = false.
Proof.
  intros c r H. unfold Py.strip in H.
  rewrite list_ascii_of_string_of_list_ascii, rev_involutive in H.
  exact (drop_spaces_head _ c r H).
Qed.

Lemma contains_char_in (c : ascii) (s : string) :
  PyText.contains_char c s = true -> In c (list_ascii_of_string s).
Proof.
  unfold PyText.contains_char. induction s as [|c' s IH]; simpl; intros H.
  - discriminate.
  - destruct (ascii_dec c c') as [->|Hne]; [now left|].
    right. apply IH. simpl in H. exact H.
Qed.

Lemma upper_app (a b : string) :
  PyText.upper (a ++ b) = (PyText.upper a ++ PyText.upper b)%string.
Proof.
  unfold PyText.upper, PyText.map_chars.
  induction a as [|c a IH]; simpl; [reflexivity|]. now rewrite IH.
Qed.

Lemma prefix_refl (p w : string) : String.prefix p (p ++ w) = true.
Proof. exact (startswith_app p w). Qed.

Lemma contains_suffix (p a : string) : PyText.contains p (a ++ p) = true.
Proof.
  induction a as [|c a IH]; simpl.
  - pose proof (prefix_refl p "") as H. rewrite append_empty in H.
    destruct p as [|c p]; [reflexivity|]. cbn [PyText.contains]. now rewrite H.
  - rewrite IH. apply orb_true_r.
Qed.

End TextFacts.

(** ** Pose names *)

Section PoseNameFacts.

Lemma first_invalid_none (s : string) :
  PoseName.first_invalid PoseName.invalid_chars s = None <->
  Forall (fun c => PyText.contains_char c s = false) PoseName.invalid_chars.
Proof.
  induction PoseName.invalid_chars as [|c cs IH]; simpl.
  - split; constructor.
  - destruct (PyText.contains_char c s) eqn:E.
    + split; [discriminate | intros H; inversion H; congruence].
    + rewrite IH. split; [intros H; now constructor | now inversion 1].
Qed.

Lemma pose_regex_chars (t : string) :
  PoseName.pose_regex_ok (Py.strip t) = true ->
  forall c, In c (list_ascii_of_string (Py.strip t)) -> PoseName.pose_class_char c = true.
Proof.
  unfold PoseName.pose_regex_ok. intros H c Hin.
  apply andb_true_iff in H as [_ H]. rewrite forallb_forall in H. apply H.
  destruct (rev (list_ascii_of_string (Py.strip t))) as [|c0 r] eqn:E; [exact Hin|].
  pose proof (strip_last t c0 r E) as Hs.
  destruct (Ascii.eqb c0 "010") eqn:Ec; [|exact Hin].
  apply Ascii.eqb_eq in Ec. subst c0. discriminate.
Qed.

(** A stripped name accepted by the pattern of the tab is accepted by
    [validate_pose_name]. *)
Lemma regex_ok_validates (t : string) :
  Py.strip t <> "" -> PoseName.pose_regex_ok (Py.strip t) = true ->
  PoseName.validate_pose_name (Py.strip t) = (true, "Valid pose name").
Proof.
  intros Hne Hre. unfold PoseName.validate_pose_name. rewrite strip_idem.
  apply String.eqb_neq in Hne. rewrite Hne. cbn [orb].
  assert (Hn : PoseName.first_invalid PoseName.invalid_chars (Py.strip t) = None).
  { apply first_invalid_none. apply Forall_forall. intros c Hc.
    destruct (PyText.contains_char c (Py.strip t)) eqn:E; [|reflexivity].
    apply contains_char_in in E. apply (pose_regex_chars t Hre c) in E.
    revert E. simpl in Hc.
    repeat (destruct Hc as [<-|Hc]; [vm_compute; discriminate|]). destruct Hc. }
  now rewrite Hn.
Qed.

End PoseNameFacts.

(** ** Colours *)

Section ColorFacts.

Lemma first_color_default (m : list (string * list Z)) (u : string) :
  Forall (fun kc => snd kc <> Colors.default_color) m ->
  Colors.first_color m u = Colors.default_color <->
  Forall (fun kc => PyText.contains (PyText.upper (fst kc)) u = false) m.
Proof.
  induction m as [|[k c] m IH]; simpl; intros Hm.
  - split; constructor.
  - inversion Hm as [|? ? Hc Hm']; subst. simpl in Hc.
    destruct (PyText.contains (PyText.upper k) u) eqn:E.
    + split; [congruence | intros H; inversion H; simpl in *; congruence].
    + rewrite (IH Hm'). split; [intros H; now constructor | now inversion 1].
Qed.

End ColorFacts.

(** ** Extra properties *)

(** [PoseCreationTab.create_pose] never shows the [Invalid Pose Name]
    warning: a stripped name that passes its pattern check always passes
    [validate_pose_name]. *)
Theorem create_pose_tab_never_invalid_pose_name
    (json_text pose_text text : string) (json_exists : bool) :
  PoseName.PoseCreationTab_create_pose json_text pose_text json_exists
  <> PoseName.Warn "Invalid Pose Name" text.
Proof.
  unfold PoseName.PoseCreationTab_create_pose.
  destruct (String.eqb_spec (Py.strip pose_text) "") as [|Hne]; [discriminate|].
  destruct (PoseName.pose_regex_ok (Py.strip pose_text)) eqn:Hre; [|discriminate].
  simpl. destruct (String.eqb (Py.strip json_text) ""); [discriminate|].
  simpl. rewrite (regex_ok_validates pose_text Hne Hre). simpl.
  destruct json_exists; discriminate.
Qed.

(** [get_color_for_name] gives the default gray exactly when no key of
    [color_map], upper-cased, occurs in the upper-cased name. *)
Theorem get_color_default_iff (name : string) :
  Colors.get_color_for_name name = Colors.default_color <->
  Forall (fun kc => PyText.contains (PyText.upper (fst kc)) (PyText.upper name) = false)
    Colors.color_map.
Proof.
  apply first_color_default.
  repeat constructor; simpl; discriminate.
Qed.

Lemma suffix_color (n suffix : string) :
  In suffix ["_FRONT"; "_REAR"] ->
  Colors.get_color_for_name (n ++ suffix) <> [64; 64; 64]%Z /\
  Colors.get_color_for_name (n ++ suffix) <> Colors.default_color.
Proof.
  intros Hin. unfold Colors.get_color_for_name. rewrite upper_app.
  assert (Hc : PyText.contains (PyText.upper suffix)
                 (PyText.upper n ++ PyText.upper suffix) = true)
    by apply contains_suffix.
  destruct Hin as [<-|[<-|[]]]; cbn [Colors.first_color Colors.color_map];
  repeat match goal with
  | |- context [if PyText.contains ?k ?u then _ else _] =>
      let E := fresh in
      destruct (PyText.contains k u) eqn:E; [split; cbv; discriminate|]
  end; congruence.
Qed.

(** A name ending in [_FRONT] or [_REAR] (as the wheel points
    [FL_wheel_FRONT], [RR_wheel_REAR] do) never gets the colour of the
    [wheel] key nor the default: the suffix keys come first in
    [color_map]. *)
Theorem wheel_point_names_not_wheel_gray (n : string) :
  forall suffix, In suffix ["_FRONT"; "_REAR"] ->
  Colors.get_color_for_name (n ++ suffix) <> [64; 64; 64]%Z /\
  Colors.get_color_for_name (n ++ suffix) <> Colors.default_color.
Proof. intros suffix. apply suffix_color. Qed.

(** The wheel point [FL_wheel_FRONT] gets neither gray. *)
Lemma wheel_point_names_not_wheel_gray_witness :
  In "_FRONT" ["_FRONT"; "_REAR"] /\
  Colors.get_color_for_name ("FL_wheel" ++ "_FRONT") <> [64; 64; 64]%Z /\
  Colors.get_color_for_name ("FL_wheel" ++ "_FRONT") <> Colors.default_color.
Proof.
  split; [simpl; auto|].
  apply (wheel_point_names_not_wheel_gray "FL_wheel" "_FRONT"). simpl; auto.
Defined.

(** ** Drawing a suspension: progress callbacks and the progress bar *)

Section DrawFacts.

Context {F : Type}.
Variable f_nonzero : F -> bool.
Variable py_float : json F -> F + string.
Variables (fadd fdiv : F -> F -> F) (fneg : F -> F) (f_zero f_two : F).
Variable str_float : F -> string.
Variable subscript_error : json F -> string.
Variable CS_EXE : string.
Variable cs_exists : bool.
Variable run : list string -> run_result.




Lemma progress_sum_app (a b : list ds_event) :
  progress_sum (a ++ b) = (progress_sum a + progress_sum b)%Z.
Proof. induction a as [|[c|t] a IH]; simpl; rewrite ?IH; lia. Qed.

Lemma progress_sum_nonneg (l : list ds_event) :
  Forall unit_progress l -> (0 <= progress_sum l)%Z.
Proof. induction 1 as [|[c|t] l Hx _ IH]; simpl in *; lia. Qed.

Lemma prints_sum (l : list ds_event) :
  Forall is_print l -> Forall unit_progress l /\ progress_sum l = 0%Z.
Proof.
  induction 1 as [|[c|t] l Hx _ [IH1 IH2]]; simpl in *; [split; [constructor|reflexivity]|contradiction|].
  split; [constructor; [exact I|exact IH1] | exact IH2].
Qed.

Lemma prog_le_bind {A B} (a b : Z) (m : M ds_event A) (k : A -> M ds_event B) :
  prog_le a m -> (forall x, prog_le b (k x)) -> (0 <= b)%Z -> prog_le (a + b) (bind m k).
Proof.
  unfold prog_le, bind. intros [Hm1 Hm2] Hk Hb.
  destruct (snd m) as [x|e]; simpl; [|split; [exact Hm1|lia]].
  destruct (Hk x) as [Hk1 Hk2]. rewrite progress_sum_app.
  split; [apply Forall_app; split; assumption|lia].
Qed.

Lemma prog_le_try {A} (a b : Z) (m : M ds_event A) (h : exn -> M ds_event A) :
  prog_le a m -> (forall e, prog_le b (h e)) -> (0 <= b)%Z -> prog_le (a + b) (try_except m h).
Proof.
  unfold prog_le, try_except. intros [Hm1 Hm2] Hk Hb.
  destruct (snd m) as [x|e]; simpl; [split; [exact Hm1|lia]|].
  destruct (Hk e) as [Hk1 Hk2]. rewrite progress_sum_app.
  split; [apply Forall_app; split; assumption|lia].
Qed.

Lemma prog_le_mono {A} (n n' : Z) (m : M ds_event A) :
  (n <= n')%Z -> prog_le n m -> prog_le n' m.
Proof. unfold prog_le. intros H [H1 H2]. split; [exact H1|lia]. Qed.

Lemma prog_le_ret {A} (a : A) : prog_le 0 (ret (E:=ds_event) a).
Proof. split; simpl; [constructor|lia]. Qed.

Lemma prog_le_raise {A} (e : exn) : prog_le 0 (raise (E:=ds_event) (A:=A) e).
Proof. split; simpl; [constructor|lia]. Qed.

Lemma prog_le_prints (l : list ds_event) : Forall is_print l -> prog_le 0 (tell l).
Proof. intros H. destruct (prints_sum l H). split; simpl; [assumption|lia]. Qed.

Lemma prog_le_tick (cb : bool) :
  prog_le 1 (if cb then tell [DProgress 1%Z] else ret (E:=ds_event) tt).
Proof. destruct cb; split; simpl; repeat constructor; lia. Qed.

Lemma float_of_shape (v : json F) : exists r, float_of py_float v = ([], r).
Proof. unfold float_of. destruct (py_float v); eexists; reflexivity. Qed.

Lemma subscript_shape (v : json F) (k : string) :
  exists r, subscript subscript_error v k = ([], r).
Proof.
  unfold subscript. destruct v; try (eexists; reflexivity).
  destruct (assoc items k); eexists; reflexivity.
Qed.

Lemma wheel_param_shape (w : json F) (k : string) :
  exists r, wheel_param py_float subscript_error w k = ([], r).
Proof.
  unfold wheel_param, bind.
  destruct (subscript_shape w k) as [r1 ->]. simpl. destruct r1 as [v|e]; [|eexists; reflexivity].
  destruct (subscript_shape v "left") as [r2 ->]. simpl. destruct r2 as [l|e]; [|eexists; reflexivity].
  destruct (float_of_shape l) as [r3 ->]. eexists; reflexivity.
Qed.

Lemma ics_shape name x y z ax ay az :
  exists ps r, insert_coordinate_system str_float CS_EXE cs_exists run name x y z ax ay az = (ps, r)
               /\ Forall is_print ps.
Proof.
  unfold insert_coordinate_system. destruct cs_exists; simpl; [|do 2 eexists; split; [reflexivity|constructor]].
  destruct (run _) as [msg|rc out err]; [do 2 eexists; split; [reflexivity|constructor]|].
  unfold bind, tell, ret. simpl. do 2 eexists; split; [reflexivity|].
  rewrite app_nil_r. apply Forall_app.
  destruct (String.eqb out ""), (negb (rc =? 0)%Z && negb (String.eqb err "")); repeat constructor.
Qed.

Lemma prog_le_ics name x y z ax ay az :
  prog_le 0 (insert_coordinate_system str_float CS_EXE cs_exists run name x y z ax ay az).
Proof.
  destruct (ics_shape name x y z ax ay az) as [ps [r [-> Hp]]].
  destruct (prints_sum ps Hp). split; simpl; [assumption|lia].
Qed.

Lemma prog_le_float (v : json F) : prog_le 0 (float_of py_float v).
Proof. destruct (float_of_shape v) as [r ->]. split; simpl; [constructor|lia]. Qed.

Lemma prog_le_wheel_param w k : prog_le 0 (wheel_param py_float subscript_error w k).
Proof. destruct (wheel_param_shape w k) as [r ->]. split; simpl; [constructor|lia]. Qed.

Lemma prog_le_insert_point suffix x_offset cb point_name coords :
  prog_le 1 (insert_point py_float fadd f_zero str_float CS_EXE cs_exists run
               suffix x_offset cb point_name coords).
Proof.
  unfold insert_point.
  apply (prog_le_mono (1 + 0)); [lia|].
  apply prog_le_try; [|intros e; apply prog_le_prints; repeat constructor|lia].
  apply (prog_le_mono (0 + (0 + (0 + (0 + 1))))); [lia|].
  apply prog_le_bind; [apply prog_le_float|intros x0|lia].
  apply prog_le_bind; [apply prog_le_float|intros y|lia].
  apply prog_le_bind; [apply prog_le_float|intros z|lia].
  apply prog_le_bind; [apply prog_le_ics|intros _|lia].
  apply prog_le_tick.
Qed.





Lemma n_points_nonneg (points : list (string * json F)) : (0 <= n_points points)%Z.
Proof. induction points as [|[p c] r IH]; simpl; [lia|destruct (is_point c); lia]. Qed.

Lemma n_sections_nonneg (items : list (string * json F)) : (0 <= n_sections items)%Z.
Proof.
  induction items as [|[s d] r IH]; simpl; [lia|].
  destruct (String.eqb s "Wheels"); [lia|]. destruct d; try lia. pose proof (n_points_nonneg items); lia.
Qed.

Lemma count_hardpoints_sections (items : list (string * json F)) :
  count_hardpoints items = n_sections items.
Proof.
  unfold count_hardpoints. rewrite <- (Z.add_0_l (n_sections items)). generalize 0%Z.
  induction items as [|[s d] r IH]; intros acc; simpl; [lia|].
  rewrite IH. destruct (String.eqb s "Wheels"); [lia|].
  destruct d; try lia.
  enough (Hp : forall a, fold_left (fun c '(_, coords) => if is_point coords then (c + 1)%Z else c)
                           items a = (a + n_points items)%Z) by (rewrite Hp; lia).
  induction items as [|[p c] ps IHp]; intros a; simpl; [lia|].
  rewrite IHp. destruct (is_point c); lia.
Qed.

Lemma prog_le_insert_points suffix x_offset cb points :
  prog_le (n_points points)
    (insert_points py_float fadd f_zero str_float CS_EXE cs_exists run suffix x_offset cb points).
Proof.
  induction points as [|[p c] rest IH]; cbn [insert_points n_points]; [apply prog_le_ret|].
  apply prog_le_bind; [|intros _; exact IH|apply n_points_nonneg].
  destruct c; cbn [is_point]; try apply prog_le_ret.
  destruct (3 <=? List.length l)%nat; [apply prog_le_insert_point|apply prog_le_ret].
Qed.

Lemma prog_le_InsertHardpoint items suffix x_offset cb :
  prog_le (count_hardpoints items)
    (InsertHardpoint py_float fadd f_zero str_float CS_EXE cs_exists run items suffix x_offset cb).
Proof.
  rewrite count_hardpoints_sections.
  induction items as [|[s d] rest IH]; cbn [InsertHardpoint n_sections n_section];
    [apply prog_le_ret|].
  apply prog_le_bind; [|intros _; exact IH|apply n_sections_nonneg].
  destruct (String.eqb s "Wheels"); [apply prog_le_ret|].
  destruct d; try apply prog_le_ret. apply prog_le_insert_points.
Qed.

Lemma falsy_wheel_param (w : json F) k :
  truthy f_nonzero w = false ->
  exists e, wheel_param py_float subscript_error w k = ([], inr e).
Proof.
  intros H. unfold wheel_param, bind.
  destruct w; try (eexists; reflexivity).
  destruct items; [eexists; reflexivity|discriminate].
Qed.

Lemma prog_le_InsertWheel w r is_rear cb :
  prog_le (count_wheels f_nonzero w)
    (InsertWheel py_float fadd fdiv fneg f_zero f_two str_float subscript_error
       CS_EXE cs_exists run w r is_rear cb).
Proof.
  unfold count_wheels. destruct (truthy f_nonzero w) eqn:Ht.
  - unfold InsertWheel.
    apply (prog_le_mono (2 + 0)); [lia|].
    apply prog_le_try; [|intros [k|m|m]; apply prog_le_prints; repeat constructor|lia].
    apply (prog_le_mono (0 + (0 + (0 + (0 + (0 + (0 + (0 + (0 + (1 + (0 + 1))))))))))); [lia|].
    do 7 (apply prog_le_bind; [apply prog_le_wheel_param|intros ?|lia]).
    apply prog_le_bind; [apply prog_le_ics|intros _|lia].
    apply prog_le_bind; [apply prog_le_tick|intros _|lia].
    apply prog_le_bind; [apply prog_le_ics|intros _|lia].
    apply prog_le_tick.
  - unfold InsertWheel.
    destruct (falsy_wheel_param w "Half Track" Ht) as [e He].
    unfold try_except, bind at 1. rewrite He. simpl.
    destruct e; apply prog_le_prints; repeat constructor.
Qed.


Lemma count_hardpoints_nonneg items : (0 <= count_hardpoints (F:=F) items)%Z.
Proof. rewrite count_hardpoints_sections. apply n_sections_nonneg. Qed.

Lemma count_wheels_nonneg w : (0 <= count_wheels f_nonzero w)%Z.
Proof. unfold count_wheels. destruct (truthy f_nonzero w); lia. Qed.

Lemma prog_le_bind_ret {A B} (n : Z) (a : A) (k : A -> M ds_event B) :
  prog_le n (k a) -> prog_le n (bind (ret a) k).
Proof. unfold bind, ret. simpl. tauto. Qed.

Lemma prog_le_load r : prog_le 0 (load_json (F:=F) r).
Proof. destruct r; [apply prog_le_ret|apply prog_le_raise]. Qed.

Lemma prog_le_draw_front items cb :
  prog_le (count_hardpoints items + count_wheels f_nonzero (get items "Wheels" (JObj [])))
    (draw_front_suspension f_nonzero py_float fadd fdiv fneg f_zero f_two str_float
       subscript_error CS_EXE cs_exists run (inl (JObj items)) cb).
Proof.
  unfold draw_front_suspension, load_json. apply prog_le_bind_ret. cbv beta iota zeta.
  pose proof (count_hardpoints_nonneg items). pose proof (count_wheels_nonneg (get items "Wheels" (JObj []))).
  apply (prog_le_mono (0 + (count_hardpoints items + (0 + (count_wheels f_nonzero (get items "Wheels" (JObj [])) + 0))))); [lia|].
  apply prog_le_bind; [apply prog_le_prints; repeat constructor|intros _|lia].
  apply prog_le_bind; [apply prog_le_InsertHardpoint|intros _|lia].
  apply prog_le_bind; [apply prog_le_prints; repeat constructor|intros _|lia].
  apply prog_le_bind; [apply prog_le_InsertWheel|intros _|lia].
  apply prog_le_ret.
Qed.

Lemma prog_le_draw_rear items vehicle_json cb :
  prog_le (count_hardpoints items + count_wheels f_nonzero (get items "Wheels" (JObj [])))
    (draw_rear_suspension f_nonzero py_float fadd fdiv fneg f_zero f_two str_float
       subscript_error CS_EXE cs_exists run (inl (JObj items)) vehicle_json cb).
Proof.
  unfold draw_rear_suspension. unfold load_json at 1. apply prog_le_bind_ret.
  pose proof (count_hardpoints_nonneg items). pose proof (count_wheels_nonneg (get items "Wheels" (JObj []))).
  apply (prog_le_mono (0 + (0 + (0 + (count_hardpoints items + (0 + (count_wheels f_nonzero (get items "Wheels" (JObj [])) + 0))))))); [lia|].
  apply prog_le_bind; [apply prog_le_load|intros vehicle_data|lia].
  apply prog_le_bind; [|intros reference_distance|lia].
  { destruct vehicle_data; try apply prog_le_raise. apply prog_le_float. }
  apply prog_le_bind; [apply prog_le_prints; repeat constructor|intros _|lia].
  apply prog_le_bind; [apply prog_le_InsertHardpoint|intros _|lia].
  apply prog_le_bind; [apply prog_le_prints; repeat constructor|intros _|lia].
  apply prog_le_bind; [apply prog_le_InsertWheel|intros _|lia].
  apply prog_le_ret.
Qed.

Lemma prog_le_draw_full fitems ritems vehicle_json cb total :
  import_full_total f_nonzero (JObj fitems) (JObj ritems) = inl total ->
  prog_le total
    (draw_full_suspension f_nonzero py_float fadd fdiv fneg f_zero f_two str_float
       subscript_error CS_EXE cs_exists run (inl (JObj fitems)) (inl (JObj ritems))
       vehicle_json cb).
Proof.
  unfold import_full_total. intros H. injection H as <-.
  pose proof (count_hardpoints_nonneg ritems). pose proof (count_wheels_nonneg (get ritems "Wheels" (JObj []))).
  unfold draw_full_suspension.
  set (tf := (count_hardpoints fitems + count_wheels f_nonzero (get fitems "Wheels" (JObj [])))%Z).
  set (tr := (count_hardpoints ritems + count_wheels f_nonzero (get ritems "Wheels" (JObj [])))%Z).
  apply (prog_le_mono (tf + (tr + 0))); [unfold tf, tr; lia|].
  apply prog_le_bind; [apply prog_le_draw_front|intros ft|unfold tr; lia].
  apply prog_le_bind; [apply prog_le_draw_rear|intros rt|lia].
  apply prog_le_ret.
Qed.

Lemma progress_sum_cons e l :
  progress_sum (e :: l) =
  ((match e with DProgress c => c | DPrint _ => 0 end) + progress_sum l)%Z.
Proof. destruct e; simpl; lia. Qed.

(** The bar of [WriteSolidworksTab] follows the callbacks exactly while
    their running sum stays within the maximum. *)
Lemma bar_fold (total : Z) (evs : list ds_event) (v : Z) :
  Forall unit_progress evs -> (0 <= v)%Z -> (v + progress_sum evs <= total)%Z ->
  fold_left (fun v s => match s with
                        | SProgress c => bar_set_value 0 total (v + c) v
                        | SLog _ => v
                        end)
    (flat_map (fun e => match e with
                        | DProgress c => [SProgress c]
                        | DPrint t => match QtStream_write t with
                                      | Some s => [SLog s]
                                      | None => []
                                      end
                        end) evs) v
  = (v + progress_sum evs)%Z.
Proof.
  intros H. revert v.
  induction H as [|e evs He Hevs IH]; intros v Hv Ht;
    [simpl; lia|]. rewrite progress_sum_cons in Ht |- *. cbn [flat_map].
  pose proof (progress_sum_nonneg evs Hevs) as Hn.
  rewrite fold_left_app. destruct e as [c|t]; cbn [unit_progress] in He.
  - subst c. cbn [fold_left app].
    replace (bar_set_value 0 total (v + 1) v) with (v + 1)%Z.
    + rewrite IH; lia.
    + unfold bar_set_value.
      replace ((total <? v + 1)%Z || (v + 1 <? 0)%Z) with false
        by (symmetry; apply orb_false_iff; split; apply Z.ltb_ge; lia).
      reflexivity.
  - destruct (QtStream_write t); cbn [fold_left app]; rewrite IH; lia.
Qed.



Lemma prog_eq_bind {A B} (a b : Z) (m : M ds_event A) (k : A -> M ds_event B) :
  prog_eq a m -> (forall x, snd m = inl x -> prog_eq b (k x)) -> prog_eq (a + b) (bind m k).
Proof.
  unfold prog_eq, bind. intros [Hm1 [Hm2 [x Hx]]] Hk. rewrite Hx. simpl.
  destruct (Hk x Hx) as [Hk1 [Hk2 Hk3]]. rewrite progress_sum_app.
  split; [apply Forall_app; split; assumption|split; [lia|exact Hk3]].
Qed.

Lemma prog_eq_try {A} (a : Z) (m : M ds_event A) (h : exn -> M ds_event A) :
  prog_eq a m -> prog_eq a (try_except m h).
Proof.
  unfold prog_eq, try_except. intros [Hm1 [Hm2 [x Hx]]]. rewrite Hx. simpl.
  split; [assumption|split; [assumption|eexists; reflexivity]].
Qed.

Lemma prog_eq_ret {A} (a : A) : prog_eq 0 (ret (E:=ds_event) a).
Proof. split; simpl; [constructor|split; [reflexivity|eexists; reflexivity]]. Qed.

Lemma prog_eq_prints (l : list ds_event) : Forall is_print l -> prog_eq 0 (tell l).
Proof.
  intros H. destruct (prints_sum l H). split; simpl; [assumption|split; [assumption|eexists; reflexivity]].
Qed.

Lemma prog_eq_tick : prog_eq 1 (tell [DProgress 1%Z]).
Proof. split; simpl; [repeat constructor|split; [reflexivity|eexists; reflexivity]]. Qed.

Lemma prog_eq_float (v : json F) :
  converts py_float v = true -> prog_eq 0 (float_of py_float v).
Proof.
  unfold converts, float_of. destruct (py_float v); [intros _; apply prog_eq_ret|discriminate].
Qed.

Lemma bar_after_run {A} (r : M ds_event A) (total : Z) :
  Forall unit_progress (fst r) -> (progress_sum (fst r) <= total)%Z ->
  bar_after total (fst (SolidWorksWorker_run r)) = progress_sum (fst r).
Proof.
  intros H1 H2. unfold bar_after, SolidWorksWorker_run. cbn [fst].
  rewrite bar_fold; [lia|exact H1|lia|lia].
Qed.

Lemma worker_run_ok {A} (r : M ds_event A) (a : A) :
  snd r = inl a ->
  SolidWorksWorker_run r = (fst (SolidWorksWorker_run r), (true, "Suspension imported successfully")).
Proof. intros H. unfold SolidWorksWorker_run. rewrite H. reflexivity. Qed.

Section Complete.

Hypothesis cs_present : cs_exists = true.
Hypothesis run_completes :
  forall args, exists rc out err, run args = RunDone rc out err.

Lemma prog_eq_ics name x y z ax ay az :
  prog_eq 0 (insert_coordinate_system str_float CS_EXE cs_exists run name x y z ax ay az).
Proof.
  destruct (ics_shape name x y z ax ay az) as [ps [r [He Hp]]].
  rewrite He. destruct (prints_sum ps Hp) as [H1 H2].
  split; [exact H1|split; [exact H2|]]. simpl.
  unfold insert_coordinate_system in He. rewrite cs_present in He. simpl in He.
  match type of He with context [run ?args] =>
    destruct (run_completes args) as [rc [out [err Hr]]]; rewrite Hr in He end.
  injection He as _ <-. eexists; reflexivity.
Qed.

Lemma prog_eq_insert_point suffix x_offset point_name coords :
  converts py_float (nth 0 coords JNull) = true ->
  converts py_float (nth 1 coords JNull) = true ->
  converts py_float (nth 2 coords JNull) = true ->
  prog_eq 1 (insert_point py_float fadd f_zero str_float CS_EXE cs_exists run
               suffix x_offset true point_name coords).
Proof.
  intros H0 H1 H2. unfold insert_point. apply prog_eq_try.
  change 1%Z with (0 + (0 + (0 + (0 + 1))))%Z.
  apply prog_eq_bind; [apply prog_eq_float; exact H0|intros x0 _].
  apply prog_eq_bind; [apply prog_eq_float; exact H1|intros y _].
  apply prog_eq_bind; [apply prog_eq_float; exact H2|intros z _].
  apply prog_eq_bind; [apply prog_eq_ics|intros _ _].
  apply prog_eq_tick.
Qed.

Lemma prog_eq_insert_points suffix x_offset points :
  forallb (fun '(_, coords) =>
    match coords with
    | JList l =>
        negb (3 <=? List.length l)%nat ||
        (converts py_float (nth 0 l JNull) && converts py_float (nth 1 l JNull) &&
         converts py_float (nth 2 l JNull))
    | _ => true
    end) points = true ->
  prog_eq (n_points points)
    (insert_points py_float fadd f_zero str_float CS_EXE cs_exists run suffix x_offset true points).
Proof.
  induction points as [|[p c] rest IH]; cbn [insert_points n_points forallb]; intros H;
    [apply prog_eq_ret|].
  apply andb_true_iff in H as [Hc Hr].
  apply prog_eq_bind; [|intros _ _; exact (IH Hr)].
  destruct c; cbn [is_point]; try apply prog_eq_ret.
  destruct (3 <=? List.length l)%nat; [|apply prog_eq_ret].
  simpl in Hc. apply andb_true_iff in Hc as [Hc Hc2]. apply andb_true_iff in Hc as [Hc0 Hc1].
  apply prog_eq_insert_point; assumption.
Qed.

Lemma prog_eq_InsertHardpoint items suffix x_offset :
  hardpoints_convert py_float items = true ->
  prog_eq (count_hardpoints items)
    (InsertHardpoint py_float fadd f_zero str_float CS_EXE cs_exists run items suffix x_offset true).
Proof.
  rewrite count_hardpoints_sections. unfold hardpoints_convert.
  induction items as [|[s d] rest IH]; cbn [InsertHardpoint n_sections n_section forallb]; intros H;
    [apply prog_eq_ret|].
  apply andb_true_iff in H as [Hs Hr].
  apply prog_eq_bind; [|intros _ _; exact (IH Hr)].
  destruct (String.eqb s "Wheels"); [apply prog_eq_ret|].
  destruct d; try apply prog_eq_ret. apply prog_eq_insert_points. exact Hs.
Qed.

Lemma prog_eq_InsertWheel w r is_rear :
  wheels_convert f_nonzero py_float subscript_error w = true ->
  prog_eq (count_wheels f_nonzero w)
    (InsertWheel py_float fadd fdiv fneg f_zero f_two str_float subscript_error
       CS_EXE cs_exists run w r is_rear true).
Proof.
  unfold wheels_convert, count_wheels. destruct (truthy f_nonzero w) eqn:Ht; cbn [negb orb]; intros H.
  - assert (Hk : forall k, In k wheel_keys ->
              exists f, wheel_param py_float subscript_error w k = ([], inl f)).
    { intros k Hin. apply (proj1 (forallb_forall _ _) H k) in Hin.
      destruct (wheel_param_shape w k) as [[f|e] E]; rewrite E in Hin; [eauto|discriminate]. }
    unfold InsertWheel. apply prog_eq_try.
    change 2%Z with (0 + (0 + (0 + (0 + (0 + (0 + (0 + (0 + (1 + (0 + 1))))))))))%Z.
    do 7 (apply prog_eq_bind;
      [match goal with |- prog_eq _ (wheel_param _ _ _ ?k) =>
         destruct (Hk k ltac:(simpl; tauto)) as [? ->]; apply prog_eq_ret end
      | intros ? _]).
    cbv zeta.
    apply prog_eq_bind; [apply prog_eq_ics|intros _ _].
    apply prog_eq_bind; [apply prog_eq_tick|intros _ _].
    apply prog_eq_bind; [apply prog_eq_ics|intros _ _].
    apply prog_eq_tick.
  - unfold InsertWheel.
    destruct (falsy_wheel_param w "Half Track" Ht) as [e He].
    unfold try_except, bind at 1. rewrite He. cbn [fst snd app].
    destruct e; apply prog_eq_prints; repeat constructor.
Qed.


Lemma prog_eq_bind_ret {A B} (n : Z) (a : A) (k : A -> M ds_event B) :
  prog_eq n (k a) -> prog_eq n (bind (ret a) k).
Proof. unfold bind, ret. simpl. tauto. Qed.

Lemma prog_eq_draw_front items :
  hardpoints_convert py_float items = true ->
  wheels_convert f_nonzero py_float subscript_error (get items "Wheels" (JObj [])) = true ->
  prog_eq (count_hardpoints items + count_wheels f_nonzero (get items "Wheels" (JObj [])))
    (draw_front_suspension f_nonzero py_float fadd fdiv fneg f_zero f_two str_float
       subscript_error CS_EXE cs_exists run (inl (JObj items)) true).
Proof.
  intros Hh Hw. unfold draw_front_suspension, load_json. apply prog_eq_bind_ret. cbv beta iota zeta.
  replace (count_hardpoints items + count_wheels f_nonzero (get items "Wheels" (JObj [])))%Z
    with (0 + (count_hardpoints items + (0 + (count_wheels f_nonzero (get items "Wheels" (JObj [])) + 0))))%Z
    by lia.
  apply prog_eq_bind; [apply prog_eq_prints; repeat constructor|intros _ _].
  apply prog_eq_bind; [apply prog_eq_InsertHardpoint; exact Hh|intros _ _].
  apply prog_eq_bind; [apply prog_eq_prints; repeat constructor|intros _ _].
  apply prog_eq_bind; [apply prog_eq_InsertWheel; exact Hw|intros _ _].
  apply prog_eq_ret.
Qed.

Lemma prog_eq_draw_rear items vitems :
  hardpoints_convert py_float items = true ->
  wheels_convert f_nonzero py_float subscript_error (get items "Wheels" (JObj [])) = true ->
  converts py_float (get vitems "Reference distance" (JFloat f_zero)) = true ->
  prog_eq (count_hardpoints items + count_wheels f_nonzero (get items "Wheels" (JObj [])))
    (draw_rear_suspension f_nonzero py_float fadd fdiv fneg f_zero f_two str_float
       subscript_error CS_EXE cs_exists run (inl (JObj items)) (inl (JObj vitems)) true).
Proof.
  intros Hh Hw Hv. unfold draw_rear_suspension, load_json.
  apply prog_eq_bind_ret. apply prog_eq_bind_ret. cbv beta iota.
  replace (count_hardpoints items + count_wheels f_nonzero (get items "Wheels" (JObj [])))%Z
    with (0 + (0 + (count_hardpoints items + (0 + (count_wheels f_nonzero (get items "Wheels" (JObj [])) + 0)))))%Z
    by lia.
  apply prog_eq_bind; [apply prog_eq_float; exact Hv|intros rd _]. cbv beta iota zeta.
  apply prog_eq_bind; [apply prog_eq_prints; repeat constructor|intros _ _].
  apply prog_eq_bind; [apply prog_eq_InsertHardpoint; exact Hh|intros _ _].
  apply prog_eq_bind; [apply prog_eq_prints; repeat constructor|intros _ _].
  apply prog_eq_bind; [apply prog_eq_InsertWheel; exact Hw|intros _ _].
  apply prog_eq_ret.
Qed.


(** When [CoordinateRunner.exe] exists, each of its runs returns, and every
    [float(...)] the drawing makes succeeds, the worker that
    [WriteSolidworksTab.import_full_suspension] starts reports
    [Suspension imported successfully] and its progress bar ends at the
    [total] computed before the start. *)
Theorem write_tab_bar_full_on_success (front_data rear_data : json F)
    (vitems : list (string * json F)) (total : Z) :
  import_full_total f_nonzero front_data rear_data = inl total ->
  (forall fitems ritems, front_data = JObj fitems -> rear_data = JObj ritems ->
   hardpoints_convert py_float fitems = true /\
   wheels_convert f_nonzero py_float subscript_error (get fitems "Wheels" (JObj [])) = true /\
   hardpoints_convert py_float ritems = true /\
   wheels_convert f_nonzero py_float subscript_error (get ritems "Wheels" (JObj [])) = true) ->
  converts py_float (get vitems "Reference distance" (JFloat f_zero)) = true ->
  exists sigs,
    SolidWorksWorker_run
      (draw_full_suspension f_nonzero py_float fadd fdiv fneg f_zero f_two str_float
         subscript_error CS_EXE cs_exists run (inl front_data) (inl rear_data)
         (inl (JObj vitems)) true)
    = (sigs, (true, "Suspension imported successfully")) /\
    bar_after total sigs = total.
Proof.
  intros Ht Hc Hv.
  destruct front_data as [| | | | | |fitems]; try discriminate.
  destruct rear_data as [| | | | | |ritems]; try discriminate.
  destruct (Hc fitems ritems eq_refl eq_refl) as [Hf1 [Hf2 [Hr1 Hr2]]].
  unfold import_full_total in Ht. injection Ht as <-.
  assert (He : prog_eq
    ((count_hardpoints fitems + count_wheels f_nonzero (get fitems "Wheels" (JObj []))) +
     ((count_hardpoints ritems + count_wheels f_nonzero (get ritems "Wheels" (JObj []))) + 0))%Z
    (draw_full_suspension f_nonzero py_float fadd fdiv fneg f_zero f_two str_float
         subscript_error CS_EXE cs_exists run (inl (JObj fitems)) (inl (JObj ritems))
         (inl (JObj vitems)) true)).
  { unfold draw_full_suspension.
    apply prog_eq_bind; [apply prog_eq_draw_front; assumption|intros ft _].
    apply prog_eq_bind; [apply prog_eq_draw_rear; assumption|intros rt _].
    apply prog_eq_ret. }
  destruct He as [H1 [H2 [a Ha]]].
  eexists. split; [apply (worker_run_ok _ a Ha)|].
  rewrite bar_after_run; [lia|exact H1|lia].
Qed.

End Complete.

(** Whatever the runner, the files and the conversions do, the progress
    callbacks of [draw_full_suspension] sum to at most the [total] that
    [import_full_suspension] computed, so [on_progress] never has a value
    ignored by the bar, which ends at that sum. *)
Theorem write_tab_progress_within_total (front_data rear_data : json F)
    (vehicle_json : json F + string) (cb : bool) (total : Z) :
  import_full_total f_nonzero front_data rear_data = inl total ->
  let r := draw_full_suspension f_nonzero py_float fadd fdiv fneg f_zero f_two str_float
             subscript_error CS_EXE cs_exists run (inl front_data) (inl rear_data)
             vehicle_json cb in
  (progress_sum (fst r) <= total)%Z /\
  bar_after total (fst (SolidWorksWorker_run r)) = progress_sum (fst r).
Proof.
  intros Ht r.
  destruct front_data as [| | | | | |fitems]; try discriminate.
  destruct rear_data as [| | | | | |ritems]; try discriminate.
  destruct (prog_le_draw_full fitems ritems vehicle_json cb total Ht) as [H1 H2].
  split; [exact H2|apply bar_after_run; assumption].
Qed.

Lemma snd_bind_tt {B} (m : M ds_event unit) (k : unit -> M ds_event B) :
  snd m = inl tt -> snd (bind m k) = snd (k tt).
Proof. unfold bind. intros ->. reflexivity. Qed.

Lemma insert_point_returns suffix x_offset cb point_name coords :
  snd (insert_point py_float fadd f_zero str_float CS_EXE cs_exists run
         suffix x_offset cb point_name coords) = inl tt.
Proof.
  unfold insert_point, try_except.
  match goal with |- context [match snd ?m with _ => _ end] => destruct (snd m) as [[]|e] end;
  reflexivity.
Qed.

Lemma insert_points_returns suffix x_offset cb points :
  snd (insert_points py_float fadd f_zero str_float CS_EXE cs_exists run
         suffix x_offset cb points) = inl tt.
Proof.
  induction points as [|[p c] rest IH]; cbn [insert_points]; [reflexivity|].
  rewrite snd_bind_tt; [exact IH|].
  destruct c; try reflexivity.
  destruct (3 <=? List.length l)%nat; [apply insert_point_returns|reflexivity].
Qed.

(** [InsertHardpoint] and [InsertWheel] never raise: an exception while
    inserting a point or the wheels is caught and printed, whatever the data,
    the conversions and the runner do. *)
Theorem insert_functions_never_raise items suffix x_offset cb w reference_distance is_rear :
  snd (InsertHardpoint py_float fadd f_zero str_float CS_EXE cs_exists run
         items suffix x_offset cb) = inl tt /\
  snd (InsertWheel py_float fadd fdiv fneg f_zero f_two str_float subscript_error
         CS_EXE cs_exists run w reference_distance is_rear cb) = inl tt.
Proof.
  split.
  - induction items as [|[s d] rest IH]; cbn [InsertHardpoint]; [reflexivity|].
    rewrite snd_bind_tt; [exact IH|].
    destruct (String.eqb s "Wheels"); [reflexivity|].
    destruct d; try reflexivity. apply insert_points_returns.
  - unfold InsertWheel, try_except.
    match goal with |- context [match snd ?m with _ => _ end] => destruct (snd m) as [[]|[k|msg|msg]] end;
    reflexivity.
Qed.

Section MissingRunner.

Hypothesis cs_missing : cs_exists = false.

Lemma ics_missing name x y z ax ay az :
  insert_coordinate_system str_float CS_EXE cs_exists run name x y z ax ay az =
  ([], inr (Error ("CoordinateRunner.exe not found at " ++ CS_EXE ++
                   ". Run 'dotnet build -c Release' in sw_drawer folder.")%string)).
Proof. unfold insert_coordinate_system. rewrite cs_missing. reflexivity. Qed.

Lemma prog_eq_try0 {A} (m : M ds_event A) (h : exn -> M ds_event A) :
  prog_le 0 m -> (forall e, prog_eq 0 (h e)) -> prog_eq 0 (try_except m h).
Proof.
  unfold prog_le, prog_eq, try_except. intros [Hm1 Hm2] Hh.
  pose proof (progress_sum_nonneg _ Hm1).
  destruct (snd m) as [a|e]; simpl.
  - split; [exact Hm1|split; [lia|eexists; reflexivity]].
  - destruct (Hh e) as [H1 [H2 H3]]. rewrite progress_sum_app.
    split; [apply Forall_app; split; assumption|split; [lia|exact H3]].
Qed.

Lemma prog_le_ics_bind {B} name x y z ax ay az (k : bool -> M ds_event B) :
  prog_le 0 (bind (insert_coordinate_system str_float CS_EXE cs_exists run
                     name x y z ax ay az) k).
Proof. rewrite ics_missing. apply prog_le_raise. Qed.

Lemma missing_insert_point suffix x_offset cb point_name coords :
  prog_eq 0 (insert_point py_float fadd f_zero str_float CS_EXE cs_exists run
               suffix x_offset cb point_name coords).
Proof.
  unfold insert_point. apply prog_eq_try0; [|intros e; apply prog_eq_prints; repeat constructor].
  apply (prog_le_mono (0 + (0 + (0 + 0)))); [lia|].
  apply prog_le_bind; [apply prog_le_float|intros x0|lia].
  apply prog_le_bind; [apply prog_le_float|intros y|lia].
  apply prog_le_bind; [apply prog_le_float|intros z|lia].
  apply prog_le_ics_bind.
Qed.

Lemma missing_InsertHardpoint items suffix x_offset cb :
  prog_eq 0 (InsertHardpoint py_float fadd f_zero str_float CS_EXE cs_exists run
               items suffix x_offset cb).
Proof.
  induction items as [|[s d] rest IH]; cbn [InsertHardpoint]; [apply prog_eq_ret|].
  change 0%Z with (0 + 0)%Z. apply prog_eq_bind; [|intros _ _; exact IH].
  destruct (String.eqb s "Wheels"); [apply prog_eq_ret|].
  destruct d; try apply prog_eq_ret.
  induction items as [|[p c] ps IHp]; cbn [insert_points]; [apply prog_eq_ret|].
  change 0%Z with (0 + 0)%Z. apply prog_eq_bind; [|intros _ _; exact IHp].
  destruct c; try apply prog_eq_ret.
  destruct (3 <=? List.length l)%nat; [apply missing_insert_point|apply prog_eq_ret].
Qed.

Lemma missing_InsertWheel w r is_rear cb :
  prog_eq 0 (InsertWheel py_float fadd fdiv fneg f_zero f_two str_float subscript_error
               CS_EXE cs_exists run w r is_rear cb).
Proof.
  unfold InsertWheel.
  apply prog_eq_try0; [|intros [k|m|m]; apply prog_eq_prints; repeat constructor].
  apply (prog_le_mono (0 + (0 + (0 + (0 + (0 + (0 + (0 + 0)))))))); [lia|].
  do 7 (apply prog_le_bind; [apply prog_le_wheel_param|intros ?|lia]).
  cbv zeta. apply prog_le_ics_bind.
Qed.

(** When [CoordinateRunner.exe] is missing and the reference distance
    converts, the worker still reports [Suspension imported successfully]:
    every [FileNotFoundError] is caught and printed by [InsertHardpoint] and
    [InsertWheel]; no progress is reported, and the bar stays at 0. *)
Theorem missing_coordinate_runner_reports_success (front_data rear_data : json F)
    (vitems : list (string * json F)) (total : Z) :
  import_full_total f_nonzero front_data rear_data = inl total ->
  converts py_float (get vitems "Reference distance" (JFloat f_zero)) = true ->
  exists sigs,
    SolidWorksWorker_run
      (draw_full_suspension f_nonzero py_float fadd fdiv fneg f_zero f_two str_float
         subscript_error CS_EXE cs_exists run (inl front_data) (inl rear_data)
         (inl (JObj vitems)) true)
    = (sigs, (true, "Suspension imported successfully")) /\
    bar_after total sigs = 0%Z.
Proof.
  intros Ht Hv.
  destruct front_data as [| | | | | |fitems]; try discriminate.
  destruct rear_data as [| | | | | |ritems]; try discriminate.
  unfold import_full_total in Ht. injection Ht as <-.
  assert (He : prog_eq 0
    (draw_full_suspension f_nonzero py_float fadd fdiv fneg f_zero f_two str_float
         subscript_error CS_EXE cs_exists run (inl (JObj fitems)) (inl (JObj ritems))
         (inl (JObj vitems)) true)).
  { unfold draw_full_suspension, draw_front_suspension, draw_rear_suspension, load_json.
    change 0%Z with (0 + (0 + 0))%Z.
    apply prog_eq_bind; [|intros ft _; apply prog_eq_bind; [|intros rt _; apply prog_eq_ret]].
    - apply prog_eq_bind_ret. cbv beta iota zeta.
      change 0%Z with (0 + (0 + (0 + (0 + 0))))%Z.
      apply prog_eq_bind; [apply prog_eq_prints; repeat constructor|intros _ _].
      apply prog_eq_bind; [apply missing_InsertHardpoint|intros _ _].
      apply prog_eq_bind; [apply prog_eq_prints; repeat constructor|intros _ _].
      apply prog_eq_bind; [apply missing_InsertWheel|intros _ _].
      apply prog_eq_ret.
    - apply prog_eq_bind_ret. apply prog_eq_bind_ret. cbv beta iota.
      change 0%Z with (0 + (0 + (0 + (0 + (0 + 0)))))%Z.
      apply prog_eq_bind; [apply prog_eq_float; exact Hv|intros rd _]. cbv beta iota zeta.
      apply prog_eq_bind; [apply prog_eq_prints; repeat constructor|intros _ _].
      apply prog_eq_bind; [apply missing_InsertHardpoint|intros _ _].
      apply prog_eq_bind; [apply prog_eq_prints; repeat constructor|intros _ _].
      apply prog_eq_bind; [apply missing_InsertWheel|intros _ _].
      apply prog_eq_ret. }
  destruct He as [H1 [H2 [a Ha]]].
  pose proof (count_hardpoints_nonneg fitems). pose proof (count_hardpoints_nonneg ritems).
  pose proof (count_wheels_nonneg (get fitems "Wheels" (JObj []))).
  pose proof (count_wheels_nonneg (get ritems "Wheels" (JObj []))).
  eexists. split; [apply (worker_run_ok _ a Ha)|].
  rewrite bar_after_run; [exact H2|exact H1|lia].
Qed.

End MissingRunner.

End DrawFacts.

(** The drawing on the sample suspension: 7 coordinate systems when the
    runner is found, the bar full at the end. *)
Lemma write_tab_bar_full_on_success_witness :
  import_full_total DrawSample.zf_nonzero (JObj DrawSample.front_items)
    (JObj DrawSample.rear_items) = inl 7%Z /\
  exists sigs,
    SolidWorksWorker_run
      (DrawSample.zdraw_full true (JObj DrawSample.front_items)
         (JObj DrawSample.rear_items) (JObj DrawSample.vehicle_items))
    = (sigs, (true, "Suspension imported successfully")) /\
    bar_after 7 sigs = 7%Z.
Proof.
  split; [vm_compute; reflexivity|].
  unfold DrawSample.zdraw_full.
  apply (write_tab_bar_full_on_success DrawSample.zf_nonzero DrawSample.zfloat
           Z.add Z.div Z.opp 0%Z 2%Z Py.str_int DrawSample.zsubscript_error
           "CoordinateRunner.exe" true DrawSample.zrun).
  - reflexivity.
  - intros args. exists 0%Z, "", "". reflexivity.
  - vm_compute. reflexivity.
  - intros fi ri Hf Hr. injection Hf as <-. injection Hr as <-.
    vm_compute. repeat split.
  - vm_compute. reflexivity.
Defined.

(** A vehicle file that is not an object: the front is drawn (4 progress
    steps out of 7), then [draw_rear_suspension] raises; the bar ends at 4. *)
Lemma write_tab_progress_within_total_witness :
  import_full_total DrawSample.zf_nonzero (JObj DrawSample.front_items)
    (JObj DrawSample.rear_items) = inl 7%Z /\
  let r := DrawSample.zdraw_full true (JObj DrawSample.front_items)
             (JObj DrawSample.rear_items) (JList []) in
  (progress_sum (fst r) <= 7)%Z /\
  bar_after 7 (fst (SolidWorksWorker_run r)) = progress_sum (fst r) /\
  progress_sum (fst r) = 4%Z.
Proof.
  split; [vm_compute; reflexivity|]. intros r.
  assert (H : (progress_sum (fst r) <= 7)%Z /\
              bar_after 7 (fst (SolidWorksWorker_run r)) = progress_sum (fst r)).
  { unfold r, DrawSample.zdraw_full.
    apply (write_tab_progress_within_total DrawSample.zf_nonzero DrawSample.zfloat
             Z.add Z.div Z.opp 0%Z 2%Z Py.str_int DrawSample.zsubscript_error
             "CoordinateRunner.exe" true DrawSample.zrun).
    vm_compute. reflexivity. }
  destruct H as [H1 H2]. split; [exact H1|split; [exact H2|]].
  vm_compute. reflexivity.
Defined.

(** The sample suspension with [CoordinateRunner.exe] missing: success is
    reported while the bar, of maximum 7, stays at 0. *)
Lemma missing_coordinate_runner_reports_success_witness :
  import_full_total DrawSample.zf_nonzero (JObj DrawSample.front_items)
    (JObj DrawSample.rear_items) = inl 7%Z /\
  exists sigs,
    SolidWorksWorker_run
      (DrawSample.zdraw_full false (JObj DrawSample.front_items)
         (JObj DrawSample.rear_items) (JObj DrawSample.vehicle_items))
    = (sigs, (true, "Suspension imported successfully")) /\
    bar_after 7 sigs = 0%Z.
Proof.
  split; [vm_compute; reflexivity|].
  unfold DrawSample.zdraw_full.
  apply (missing_coordinate_runner_reports_success DrawSample.zf_nonzero
           DrawSample.zfloat Z.add Z.div Z.opp 0%Z 2%Z Py.str_int
           DrawSample.zsubscript_error "CoordinateRunner.exe" false DrawSample.zrun).
  - reflexivity.
  - vm_compute. reflexivity.
  - vm_compute. reflexivity.
Defined.

(** ** Extracting hardpoints: what a successful extraction returns *)

Section ExtractFacts.

Context {F : Type}.
Variable f_nonzero : F -> bool.
Variable py_float : json F -> F + string.
Variables (fdiv : F -> F -> F) (fneg : F -> F) (f_two : F).

Lemma snd_bind_eq {E A B} (m : M E A) (k : A -> M E B) :
  snd (bind m k) = match snd m with inl a => snd (k a) | inr e => inr e end.
Proof. unfold bind. destruct (snd m); reflexivity. Qed.

Lemma bind_inl {E A B} (m : M E A) (k : A -> M E B) r :
  snd (bind m k) = inl r -> exists a, snd m = inl a /\ snd (k a) = inl r.
Proof. rewrite snd_bind_eq. destruct (snd m) as [a|e]; [eauto|discriminate]. Qed.

(** The shape of the new entries of a section. *)
Definition suffixed (sfx : string) (hp : Extract.hardpoint (F:=F)) : Prop :=
  Extract.name hp = (Extract.base_name hp ++ sfx)%string /\ Extract.suffix hp = sfx.

Lemma point_hardpoint_ok sfx p l hp :
  snd (Extract.point_hardpoint py_float sfx p l) = inl hp -> suffixed sfx hp.
Proof.
  unfold Extract.point_hardpoint, Extract.to_float.
  destruct (py_float (nth 0 l JNull)); [|discriminate].
  destruct (py_float (nth 1 l JNull)); [|discriminate].
  destruct (py_float (nth 2 l JNull)); [|discriminate].
  cbn. intros H. injection H as <-. split; reflexivity.
Qed.

Lemma points_loop_ok sfx pts hps r :
  snd (Extract.points_loop py_float sfx pts hps) = inl r ->
  exists nw, r = hps ++ nw /\ Z.of_nat (List.length nw) = n_points pts /\
             Forall (suffixed sfx) nw.
Proof.
  revert hps. induction pts as [|[p c] rest IH]; intros hps H; cbn [Extract.points_loop n_points] in *.
  - injection H as <-. exists []. rewrite app_nil_r. split; [reflexivity|split; [reflexivity|constructor]].
  - apply bind_inl in H as [h' [H1 H2]]. destruct (IH h' H2) as [nw [-> [Hl Hf]]].
    destruct c; cbn [is_point];
      try (injection H1 as <-; exists nw; split; [reflexivity|split; [lia|exact Hf]]).
    destruct (3 <=? List.length l)%nat.
    + apply bind_inl in H1 as [hp [Hp H1]]. injection H1 as <-.
      exists (hp :: nw). rewrite <- app_assoc. split; [reflexivity|].
      split; [cbn [List.length]; lia|constructor; [exact (point_hardpoint_ok _ _ _ _ Hp)|exact Hf]].
    + injection H1 as <-. exists nw. split; [reflexivity|split; [lia|exact Hf]].
Qed.

Lemma sections_loop_ok sfx items hps r :
  snd (Extract.sections_loop py_float sfx items hps) = inl r ->
  exists nw, r = hps ++ nw /\ Z.of_nat (List.length nw) = n_sections items /\
             Forall (suffixed sfx) nw.
Proof.
  revert hps. induction items as [|[s d] rest IH]; intros hps H;
    cbn [Extract.sections_loop n_sections] in *.
  - injection H as <-. exists []. rewrite app_nil_r. split; [reflexivity|split; [reflexivity|constructor]].
  - apply bind_inl in H as [h' [H1 H2]]. destruct (IH h' H2) as [nw [-> [Hl Hf]]].
    unfold n_section. destruct (String.eqb s "Wheels").
    + injection H1 as <-. exists nw. split; [reflexivity|split; [lia|exact Hf]].
    + destruct d; try (injection H1 as <-; exists nw; split; [reflexivity|split; [lia|exact Hf]]).
      destruct (points_loop_ok _ _ _ _ H1) as [nw1 [-> [Hl1 Hf1]]].
      exists (nw1 ++ nw). rewrite <- app_assoc. split; [reflexivity|].
      split; [rewrite length_app; lia|apply Forall_app; split; assumption].
Qed.

(** The points of a section value that [count_hardpoints] counts; a
    section that is not a dict counts none. *)
Definition section_count (v : json F) : Z :=
  match v with JObj items => count_hardpoints items | _ => 0%Z end.

Lemma section_ok v sfx hps r :
  snd (Extract.extract_hardpoints_from_section f_nonzero py_float v sfx hps) = inl r ->
  exists nw, r = hps ++ nw /\ Z.of_nat (List.length nw) = section_count v /\
             Forall (suffixed sfx) nw.
Proof.
  unfold Extract.extract_hardpoints_from_section, section_count. intros H.
  destruct (truthy f_nonzero v) eqn:Ht; cbn [negb] in H.
  - destruct v; try discriminate H.
    rewrite count_hardpoints_sections. exact (sections_loop_ok _ _ _ _ H).
  - injection H as <-. exists []. rewrite app_nil_r. split; [reflexivity|].
    split; [|constructor]. destruct v; try reflexivity.
    destruct items; [reflexivity|discriminate Ht].
Qed.

Definition silent {E A} (m : M E A) : Prop := fst m = [].

Lemma silent_bind {E A B} (m : M E A) (k : A -> M E B) :
  silent m -> (forall a, silent (k a)) -> silent (bind m k).
Proof. unfold silent, bind. intros Hm Hk. destruct (snd m); simpl; rewrite Hm; [apply Hk|reflexivity]. Qed.

Lemma silent_dot_get v k d : silent (Extract.dot_get (F:=F) v k d).
Proof. destruct v; reflexivity. Qed.

Lemma silent_to_float v : silent (Extract.to_float py_float v).
Proof. unfold Extract.to_float. destruct (py_float v); reflexivity. Qed.

Lemma silent_ret {E A} (a : A) : silent (E:=E) (ret a).
Proof. reflexivity. Qed.

Definition wheel_warning (e : exn) : string :=
  ("Warning: Could not extract wheel data: " ++ str_exn e)%string.

Lemma extract_wheels_cases (w : json F) hps r :
  let m := Extract.extract_wheels f_nonzero py_float fdiv fneg f_two w hps in
  snd m = inl r ->
  (exists half_track tire_radius,
     r = hps ++ Extract.wheel_hardpoints fneg half_track tire_radius /\ fst m = []) \/
  (r = hps /\
   ((truthy f_nonzero w = false /\ fst m = []) \/ exists e, fst m = [wheel_warning e])).
Proof.
  intros m. subst m. unfold Extract.extract_wheels.
  destruct (truthy f_nonzero w) eqn:Ht; cbn [negb].
  - match goal with |- context [try_except ?b ?h] =>
      assert (Hs : silent b);
      [|assert (Hb : forall r', snd b = inl r' -> exists ht tr,
                       r' = hps ++ Extract.wheel_hardpoints fneg ht tr);
        [|unfold try_except; destruct (snd b) as [a|e] eqn:E]] end.
    + repeat (apply silent_bind; [first [apply silent_dot_get|apply silent_to_float]|intros ?]).
      apply silent_ret.
    + intros r' H. repeat (apply bind_inl in H as [? [_ H]]).
      cbn in H. injection H as <-. eexists _, _. reflexivity.
    + cbn [snd fst]. intros H. injection H as <-. left.
      destruct (Hb a eq_refl) as [ht [tr ->]]. exists ht, tr. split; [reflexivity|exact Hs].
    + cbn [snd fst]. unfold silent in Hs. rewrite Hs.
      destruct e as [k|msg|msg] eqn:Ee; intros H; simpl in H; try discriminate H;
        injection H as <-; right; (split; [reflexivity|right; exists e; subst e; reflexivity]).
  - cbn. intros H. injection H as <-. right. split; [reflexivity|left; split; reflexivity].
Qed.

Lemma falsy_section_count v : truthy f_nonzero v = false -> section_count v = 0%Z.
Proof. destruct v; try reflexivity. destruct items; [reflexivity|discriminate]. Qed.

Lemma guarded_section_ok v sfx hps r :
  snd (if truthy f_nonzero v
       then Extract.extract_hardpoints_from_section f_nonzero py_float v sfx hps
       else ret hps) = inl r ->
  exists nw, r = hps ++ nw /\ Z.of_nat (List.length nw) = section_count v /\
             Forall (suffixed sfx) nw.
Proof.
  destruct (truthy f_nonzero v) eqn:Ht; [apply section_ok|].
  intros H. injection H as <-. exists []. rewrite app_nil_r, falsy_section_count by exact Ht.
  split; [reflexivity|split; [reflexivity|constructor]].
Qed.

Lemma extract_hardpoints_cases (json_data : json F) r :
  snd (Extract.extract_hardpoints f_nonzero py_float fdiv fneg f_two json_data) = inl r ->
  exists items nf nr nw,
    json_data = JObj items /\
    r = nf ++ nr ++ nw /\
    Z.of_nat (List.length nf) = section_count (get items "Front Suspension" JNull) /\
    Z.of_nat (List.length nr) = section_count (get items "Rear Suspension" JNull) /\
    Forall (suffixed "_FRONT") nf /\ Forall (suffixed "_REAR") nr /\
    (nw = [] \/
     (truthy f_nonzero (get items "Wheels" JNull) = true /\
      exists half_track tire_radius, nw = Extract.wheel_hardpoints fneg half_track tire_radius)).
Proof.
  unfold Extract.extract_hardpoints. destruct json_data; try discriminate. intros H.
  apply bind_inl in H as [h1 [H1 H]]. apply bind_inl in H as [h2 [H2 H3]].
  destruct (guarded_section_ok _ _ _ _ H1) as [nf [-> [Hf1 Hf2]]].
  destruct (guarded_section_ok _ _ _ _ H2) as [nr [-> [Hr1 Hr2]]].
  exists items, nf, nr.
  destruct (truthy f_nonzero (get items "Wheels" JNull)) eqn:Hw.
  - destruct (extract_wheels_cases _ _ _ H3) as [[ht [tr [-> _]]]|[-> _]].
    + exists (Extract.wheel_hardpoints fneg ht tr).
      split; [reflexivity|]. split; [cbn [app]; rewrite ?app_assoc; reflexivity|].
      do 4 (split; [assumption|]). right. split; [reflexivity|eauto].
    + exists []. split; [reflexivity|]. split; [cbn [app]; rewrite ?app_nil_r; reflexivity|].
      do 4 (split; [assumption|]). left; reflexivity.
  - injection H3 as <-. exists []. split; [reflexivity|].
    split; [cbn [app]; rewrite ?app_nil_r; reflexivity|].
    do 4 (split; [assumption|]). left; reflexivity.
Qed.

(** When [extract_hardpoints] returns, its input is a dict and the list
    holds one entry per point that [count_hardpoints] counts in the front
    and rear sections, plus either no wheel entry or four, the four only
    when [Wheels] is truthy. *)
Theorem extract_hardpoints_count (json_data : json F) r :
  snd (Extract.extract_hardpoints f_nonzero py_float fdiv fneg f_two json_data) = inl r ->
  exists items, json_data = JObj items /\
    let points := (section_count (get items "Front Suspension" JNull) +
                   section_count (get items "Rear Suspension" JNull))%Z in
    (Z.of_nat (List.length r) = points \/
     (Z.of_nat (List.length r) = (points + 4)%Z /\
      truthy f_nonzero (get items "Wheels" JNull) = true)).
Proof.
  intros H. destruct (extract_hardpoints_cases _ _ H)
    as [items [nf [nr [nw [-> [-> [Hf [Hr [_ [_ Hw]]]]]]]]]].
  exists items. split; [reflexivity|]. cbv zeta. rewrite !length_app.
  destruct Hw as [->|[Ht [ht [tr ->]]]]; [left; cbn [List.length]; lia|].
  right. split; [cbn [List.length Extract.wheel_hardpoints]; lia|exact Ht].
Qed.

Definition good_name (hp : Extract.hardpoint (F:=F)) : Prop :=
  In (Extract.suffix hp) ["_FRONT"; "_REAR"] /\
  Extract.name hp = (Extract.base_name hp ++ Extract.suffix hp)%string /\
  Colors.get_color_for_name (Extract.name hp) <> [64; 64; 64]%Z /\
  Colors.get_color_for_name (Extract.name hp) <> Colors.default_color.

Lemma suffixed_good sfx hp : In sfx ["_FRONT"; "_REAR"] -> suffixed sfx hp -> good_name hp.
Proof.
  intros Hin [Hn Hs]. unfold good_name. rewrite Hn, Hs.
  split; [exact Hin|split; [reflexivity|apply suffix_color; exact Hin]].
Qed.

(** Every entry returned by [extract_hardpoints] has a [suffix] of [_FRONT]
    or [_REAR] and a [name] equal to [base_name + suffix], so
    [get_color_for_name] gives it neither the wheel gray nor the default
    gray. *)
Theorem extracted_names_colored (json_data : json F) r :
  snd (Extract.extract_hardpoints f_nonzero py_float fdiv fneg f_two json_data) = inl r ->
  Forall (fun hp =>
    In (Extract.suffix hp) ["_FRONT"; "_REAR"] /\
    Extract.name hp = (Extract.base_name hp ++ Extract.suffix hp)%string /\
    Colors.get_color_for_name (Extract.name hp) <> [64; 64; 64]%Z /\
    Colors.get_color_for_name (Extract.name hp) <> Colors.default_color) r.
Proof.
  intros H. destruct (extract_hardpoints_cases _ _ H)
    as [items [nf [nr [nw [_ [-> [_ [_ [Hf [Hr Hw]]]]]]]]]].
  apply Forall_app; split;
    [eapply Forall_impl; [|exact Hf]; intros hp; apply suffixed_good; left; reflexivity|].
  apply Forall_app; split;
    [eapply Forall_impl; [|exact Hr]; intros hp; apply suffixed_good; right; left; reflexivity|].
  destruct Hw as [->|[_ [ht [tr ->]]]]; [constructor|].
  apply Forall_forall. intros hp Hin. cbn [Extract.wheel_hardpoints In] in Hin.
  destruct Hin as [<-|[<-|[<-|[<-|[]]]]];
    first [ apply (suffixed_good "_FRONT"); [left; reflexivity|split; reflexivity]
          | apply (suffixed_good "_REAR"); [right; left; reflexivity|split; reflexivity] ].
Qed.

Lemma bind_ok_iff {E A B} (m : M E A) (k : A -> M E B) :
  (exists r, snd (bind m k) = inl r) <-> exists a, snd m = inl a /\ exists r, snd (k a) = inl r.
Proof.
  rewrite snd_bind_eq. destruct (snd m) as [a|e].
  - split; [intros H; exists a; split; [reflexivity|exact H]|].
    intros [a' [Ha' H]]. injection Ha' as <-. exact H.
  - split; [intros [r H]; discriminate H|intros [a' [Ha' _]]; discriminate Ha'].
Qed.

Local Ltac ret_case IH h :=
  split;
  [ intros [a [Ha H]]; injection Ha as <-; split; [reflexivity|apply (IH h); exact H]
  | intros [_ H]; exists h; split; [reflexivity|apply (IH h); exact H] ].

Lemma point_hardpoint_iff sfx p l :
  (exists hp, snd (Extract.point_hardpoint py_float sfx p l) = inl hp) <->
  (converts py_float (nth 0 l JNull) && converts py_float (nth 1 l JNull) &&
   converts py_float (nth 2 l JNull))%bool = true.
Proof.
  unfold Extract.point_hardpoint, Extract.to_float, converts.
  destruct (py_float (nth 0 l JNull)); [|split; [intros [hp H]; discriminate H|discriminate]].
  destruct (py_float (nth 1 l JNull)); [|split; [intros [hp H]; discriminate H|discriminate]].
  destruct (py_float (nth 2 l JNull)); [|split; [intros [hp H]; discriminate H|discriminate]].
  split; [reflexivity|intros _; eexists; reflexivity].
Qed.

Lemma points_loop_iff sfx pts hps :
  (exists r, snd (Extract.points_loop py_float sfx pts hps) = inl r) <->
  forallb (fun '(_, coords) =>
    match coords with
    | JList l =>
        negb (3 <=? List.length l)%nat ||
        (converts py_float (nth 0 l JNull) && converts py_float (nth 1 l JNull) &&
         converts py_float (nth 2 l JNull))
    | _ => true
    end) pts = true.
Proof.
  revert hps. induction pts as [|[p c] rest IH]; intros hps; cbn [Extract.points_loop forallb].
  - split; [reflexivity|intros _; eexists; reflexivity].
  - rewrite bind_ok_iff, andb_true_iff. cbv beta iota.
    destruct c; try (ret_case IH hps).
    destruct (3 <=? List.length l)%nat; cbn [negb orb]; [|ret_case IH hps].
    rewrite <- point_hardpoint_iff. split.
    + intros [a [Ha Hr]]. apply bind_inl in Ha as [hp [Hp Ha]]. injection Ha as <-.
      split; [exists hp; exact Hp|apply (IH (hps ++ [hp])); exact Hr].
    + intros [[hp Hp] Hr]. exists (hps ++ [hp]). split.
      * rewrite snd_bind_eq, Hp. reflexivity.
      * apply IH. exact Hr.
Qed.

Lemma sections_loop_iff sfx items hps :
  (exists r, snd (Extract.sections_loop py_float sfx items hps) = inl r) <->
  hardpoints_convert py_float items = true.
Proof.
  unfold hardpoints_convert.
  revert hps. induction items as [|[s d] rest IH]; intros hps; cbn [Extract.sections_loop forallb].
  - split; [reflexivity|intros _; eexists; reflexivity].
  - rewrite bind_ok_iff, andb_true_iff. cbv beta iota.
    destruct (String.eqb s "Wheels"); cbn [orb]; [ret_case IH hps|].
    destruct d; try (ret_case IH hps).
    split.
    + intros [a [Ha Hr]]. split; [apply (points_loop_iff sfx items hps); exists a; exact Ha|].
      apply (IH a). exact Hr.
    + intros [Hp Hr]. apply (points_loop_iff sfx items hps) in Hp as [a Ha].
      exists a. split; [exact Ha|apply IH; exact Hr].
Qed.

(** [extract_hardpoints_from_section] on a dict returns (rather than
    raises) exactly when [float()] accepts the first three coordinates of
    every point it visits: the same condition under which [InsertHardpoint]
    prints no error. A single bad coordinate makes it raise, and no caller
    catches that. *)
Theorem extract_section_succeeds_iff (items : list (string * json F)) sfx hps :
  (exists r, snd (Extract.extract_hardpoints_from_section f_nonzero py_float
                    (JObj items) sfx hps) = inl r) <->
  hardpoints_convert py_float items = true.
Proof.
  unfold Extract.extract_hardpoints_from_section. cbn [truthy].
  destruct items as [|it items]; cbn [List.length Nat.eqb negb].
  - split; [reflexivity|intros _; eexists; reflexivity].
  - apply sections_loop_iff.
Qed.

(** [extract_wheels] adds all four wheel entries or none: when it returns,
    either the four entries were appended and nothing printed, or the list
    is unchanged and, if [wheels_data] was truthy, one warning was printed. *)
Theorem extract_wheels_all_or_nothing (w : json F) hps r :
  let m := Extract.extract_wheels f_nonzero py_float fdiv fneg f_two w hps in
  snd m = inl r ->
  (exists half_track tire_radius,
     r = hps ++ Extract.wheel_hardpoints fneg half_track tire_radius /\ fst m = []) \/
  (r = hps /\
   ((truthy f_nonzero w = false /\ fst m = []) \/ exists e, fst m = [wheel_warning e])).
Proof. exact (extract_wheels_cases w hps r). Qed.

End ExtractFacts.

(** The sample file: 2 front points and 1 rear point (the [Wheels] entry
    of a section and the string [Note] are skipped), then the 4 wheels. *)
Lemma extract_hardpoints_count_witness :
  snd (DrawSample.zextract DrawSample.suspension_json) =
    inl (DrawSample.extracted DrawSample.suspension_json) /\
  List.length (DrawSample.extracted DrawSample.suspension_json) = 7%nat /\
  exists items, DrawSample.suspension_json = JObj items /\
    let points := (section_count (get items "Front Suspension" JNull) +
                   section_count (get items "Rear Suspension" JNull))%Z in
    (Z.of_nat (List.length (DrawSample.extracted DrawSample.suspension_json)) = points \/
     (Z.of_nat (List.length (DrawSample.extracted DrawSample.suspension_json)) = (points + 4)%Z /\
      truthy DrawSample.zf_nonzero (get items "Wheels" JNull) = true)).
Proof.
  assert (H : snd (DrawSample.zextract DrawSample.suspension_json) =
                inl (DrawSample.extracted DrawSample.suspension_json))
    by (vm_compute; reflexivity).
  split; [exact H|split; [vm_compute; reflexivity|]].
  unfold DrawSample.zextract in H. eapply extract_hardpoints_count. exact H.
Defined.

(** The names of the sample file's entries, from [UCA_front_FRONT] to
    [RR_wheel_REAR]. *)
Lemma extracted_names_colored_witness :
  snd (DrawSample.zextract DrawSample.suspension_json) =
    inl (DrawSample.extracted DrawSample.suspension_json) /\
  map Extract.name (DrawSample.extracted DrawSample.suspension_json) =
    ["UCA_front_FRONT"; "LCA_front_FRONT"; "UCA_rear_REAR";
     "FL_wheel_FRONT"; "FR_wheel_FRONT"; "RL_wheel_REAR"; "RR_wheel_REAR"] /\
  Forall (fun hp =>
    In (Extract.suffix hp) ["_FRONT"; "_REAR"] /\
    Extract.name hp = (Extract.base_name hp ++ Extract.suffix hp)%string /\
    Colors.get_color_for_name (Extract.name hp) <> [64; 64; 64]%Z /\
    Colors.get_color_for_name (Extract.name hp) <> Colors.default_color)
    (DrawSample.extracted DrawSample.suspension_json).
Proof.
  assert (H : snd (DrawSample.zextract DrawSample.suspension_json) =
                inl (DrawSample.extracted DrawSample.suspension_json))
    by (vm_compute; reflexivity).
  split; [exact H|split; [vm_compute; reflexivity|]].
  unfold DrawSample.zextract in H. eapply extracted_names_colored. exact H.
Defined.

(** Wheels whose half track is the string [wide]: the [ValueError] is
    caught, one warning is printed and no wheel entry is added. *)
Lemma extract_wheels_all_or_nothing_witness :
  let m := Extract.extract_wheels DrawSample.zf_nonzero DrawSample.zfloat Z.div Z.opp 2%Z
             DrawSample.bad_wheels DrawSample.no_hardpoints in
  snd m = inl DrawSample.no_hardpoints /\
  fst m = ["Warning: Could not extract wheel data: could not convert string to float: 'wide'"] /\
  ((exists half_track tire_radius,
      DrawSample.no_hardpoints =
        DrawSample.no_hardpoints ++ Extract.wheel_hardpoints Z.opp half_track tire_radius /\ fst m = []) \/
   (DrawSample.no_hardpoints = DrawSample.no_hardpoints /\
    ((truthy DrawSample.zf_nonzero DrawSample.bad_wheels = false /\ fst m = []) \/
     exists e, fst m = [wheel_warning e]))).
Proof.
  intros m.
  assert (H : snd m = inl DrawSample.no_hardpoints) by (vm_compute; reflexivity).
  split; [exact H|split; [vm_compute; reflexivity|]].
  exact (extract_wheels_all_or_nothing DrawSample.zf_nonzero DrawSample.zfloat Z.div Z.opp 2%Z
           DrawSample.bad_wheels DrawSample.no_hardpoints
           DrawSample.no_hardpoints H).
Defined.
